(** * Verification of the IgniteX test-server scripts

    [server.py] builds the front-end bundle and serves the [dist] directory
    through Flask with a single-page-application fallback; [Testing.py]
    launches the development server as a child process.

    The development follows the two scripts.  What they call from Python's
    standard library, Werkzeug, Flask and Flask-CORS is modelled next to
    them, function by function, for a POSIX host without symbolic links:
    - [PosixPath]: [posixpath.join], [posixpath.normpath], [basename];
    - [FS]: a directory tree with [os.path.exists], [isfile], [isdir];
    - [Headers]: Werkzeug's case-insensitive header list;
    - [Flask]: [safe_join], [send_file], [send_from_directory], the error
      responses and the Flask-CORS response hook with its default options;
    - [Server]: [serve] and [add_header] of server.py;
    - [Proc]: printing, child processes and exit statuses, as a trace of
      events under a small exception monad;
    - [Launcher] and [Startup]: the body of Testing.py and the start-up
      block of server.py.

    [Server] is the view and its hooks: what a GET request without Range
    and conditional headers is answered once the router has handed it to
    [serve].  [App] is the application around it: the router, with the
    [/dist/<path:filename>] endpoint that [Flask(__name__,
    static_folder='dist')] registers and that comes before the catch-all
    route, and the requests with Range or conditional headers, which
    [send_file] answers 206, 304, 412 or 416. *)

From stdpp Require Import gmap strings list.
From Stdlib Require Import ZArith Ascii Lia.
From Stdlib Require String.
From Stdlib.Strings Require Byte.

(** ** Python string operations *)

Module Str.

Definition slash : ascii := "/"%char.

(** [s.startswith(p)] *)
Definition startswith (s p : string) : bool := String.prefix p s.

(** [s.endswith("/")] *)
Fixpoint endswith_slash (s : string) : bool :=
  match s with
  | EmptyString => false
  | String c EmptyString => Ascii.eqb c slash
  | String _ t => endswith_slash t
  end.

(** [bool(s)]: a string is truthy when it is not empty. *)
Definition truthy (s : string) : bool :=
  match s with EmptyString => false | String _ _ => true end.

(** [needle in hay] *)
Fixpoint contains (needle hay : string) : bool :=
  String.prefix needle hay ||
  match hay with
  | EmptyString => false
  | String _ t => contains needle t
  end.

(** [s.split("/")]: never empty, one more field than there are slashes. *)
Fixpoint split (s : string) : list string :=
  match s with
  | EmptyString => [EmptyString]
  | String c t =>
      if Ascii.eqb c slash then EmptyString :: split t
      else match split t with
           | [] => [String c EmptyString]
           | h :: r => String c h :: r
           end
  end.

(** ["/".join(comps)] *)
Fixpoint join (comps : list string) : string :=
  match comps with
  | [] => EmptyString
  | [c] => c
  | c :: r => c +:+ String slash (join r)
  end.

(** [s * n] *)
Fixpoint times (s : string) (n : nat) : string :=
  match n with
  | O => EmptyString
  | S k => s +:+ times s k
  end.

(** [c.lower()] on ASCII letters, as header names are. *)
Definition lower_ascii (c : ascii) : ascii :=
  let n := nat_of_ascii c in
  if (65 <=? n)%nat && (n <=? 90)%nat then ascii_of_nat (n + 32) else c.

Fixpoint lower (s : string) : string :=
  match s with
  | EmptyString => EmptyString
  | String c t => String (lower_ascii c) (lower t)
  end.

Definition has_slash (s : string) : bool :=
  existsb (fun c => Ascii.eqb c slash) (String.list_ascii_of_string s).

End Str.

(** ** posixpath *)

Module PosixPath.

(** [posixpath.join(a, b)] *)
Definition join (a b : string) : string :=
  if Str.startswith b "/" then b
  else if negb (Str.truthy a) || Str.endswith_slash a then a +:+ b
  else a +:+ "/" +:+ b.

(** [posixpath.isabs] *)
Definition isabs (s : string) : bool := Str.startswith s "/".

Definition is_skip (comp : string) : bool :=
  String.eqb comp "" || String.eqb comp ".".

Definition last_is_dotdot (new_comps : list string) : bool :=
  match last new_comps with
  | Some c => String.eqb c ".."
  | None => false
  end.

(** One turn of the loop of [normpath] over [comps]. *)
Definition norm_step (initial_slashes : nat) (new_comps : list string)
    (comp : string) : list string :=
  if is_skip comp then new_comps
  else if negb (String.eqb comp "..")
          || ((initial_slashes =? 0)%nat && bool_decide (new_comps = []))
          || last_is_dotdot new_comps
       then new_comps ++ [comp]
       else removelast new_comps.

Definition norm_comps (initial_slashes : nat) (comps : list string)
    : list string :=
  fold_left (norm_step initial_slashes) comps [].

Definition initial_slashes (path : string) : nat :=
  if Str.startswith path "/" then
    if Str.startswith path "//" && negb (Str.startswith path "///")
    then 2 else 1
  else 0.

(** [posixpath.normpath(path)] *)
Definition normpath (path : string) : string :=
  if String.eqb path "" then "."
  else
    let n := initial_slashes path in
    let body := Str.join (norm_comps n (Str.split path)) in
    let path' := Str.times "/" n +:+ body in
    if Str.truthy path' then path' else ".".

(** [posixpath.basename(p)]: what follows the last slash. *)
Definition basename (p : string) : string :=
  match last (Str.split p) with
  | Some b => b
  | None => p
  end.

End PosixPath.

(** ** The file system *)

Module FS.

(** A directory maps names to files and sub-directories. *)
#[warnings="-register-all"]
Inductive node : Type :=
| File (data : list Byte.byte)
| Dir (entries : gmap string node).

(** Canonical location: the names from the root directory down. *)
Definition loc := list string.

Record t := mk { root : node; cwd : loc }.

Fixpoint lookup (n : node) (l : loc) : option node :=
  match l with
  | [] => Some n
  | c :: l' =>
      match n with
      | Dir entries =>
          match entries !! c with
          | Some n' => lookup n' l'
          | None => None
          end
      | File _ => None
      end
  end.

Definition is_dir_at (fs : t) (l : loc) : bool :=
  match lookup (root fs) l with
  | Some (Dir _) => true
  | _ => false
  end.

(** Path resolution, one component at a time: every component is looked
    up in a directory; [""] and ["."] stay, [".."] goes to the parent (the
    root is its own parent), a name goes to the entry of that name. *)
Definition step (fs : t) (cur : loc) (comp : string) : option loc :=
  if is_dir_at fs cur then
    if PosixPath.is_skip comp then Some cur
    else if String.eqb comp ".." then Some (removelast cur)
    else match lookup (root fs) (cur ++ [comp]) with
         | Some _ => Some (cur ++ [comp])
         | None => None
         end
  else None.

Fixpoint walk (fs : t) (cur : loc) (comps : list string) : option loc :=
  match comps with
  | [] => Some cur
  | c :: r =>
      match step fs cur c with
      | Some cur' => walk fs cur' r
      | None => None
      end
  end.

(** Where [path] leads, when it leads anywhere.  The empty path names
    nothing. *)
Definition resolve (fs : t) (path : string) : option loc :=
  if String.eqb path "" then None
  else walk fs (if PosixPath.isabs path then [] else cwd fs) (Str.split path).

Definition stat (fs : t) (path : string) : option node :=
  match resolve fs path with
  | Some l => lookup (root fs) l
  | None => None
  end.

(** [os.path.exists] *)
Definition exists_ (fs : t) (path : string) : bool :=
  match stat fs path with Some _ => true | None => false end.

(** [os.path.isfile] *)
Definition isfile (fs : t) (path : string) : bool :=
  match stat fs path with Some (File _) => true | _ => false end.

(** [os.path.isdir] *)
Definition isdir (fs : t) (path : string) : bool :=
  match stat fs path with Some (Dir _) => true | _ => false end.

(** [open(path, "rb").read()] *)
Definition read (fs : t) (path : string) : option (list Byte.byte) :=
  match stat fs path with Some (File data) => Some data | _ => None end.

(** [path] names something below the directory [dir] (or [dir] itself). *)
Definition within (fs : t) (dir path : string) : bool :=
  match resolve fs dir, resolve fs path with
  | Some d, Some l => bool_decide (d `prefix_of` l)
  | _, _ => false
  end.

End FS.

(** ** Werkzeug's [Headers]: an ordered list of pairs, keys compared
    without regard to case *)

Module Headers.

Definition t := list (string * string).

Definition same_key (k1 k2 : string) : bool :=
  String.eqb (Str.lower k1) (Str.lower k2).

(** [headers.get(key)]: the value of the first pair whose key matches. *)
Fixpoint get (key : string) (h : t) : option string :=
  match h with
  | [] => None
  | (k, v) :: r => if same_key k key then Some v else get key r
  end.

(** [headers.get(key, default)] *)
Definition get_default (key default : string) (h : t) : string :=
  match get key h with Some v => v | None => default end.

(** [headers.getlist(key)]: the values of all pairs whose key matches. *)
Fixpoint getlist (key : string) (h : t) : list string :=
  match h with
  | [] => []
  | (k, v) :: r => if same_key k key then v :: getlist key r else getlist key r
  end.

Fixpoint drop_key (key : string) (h : t) : t :=
  match h with
  | [] => []
  | (k, v) :: r => if same_key k key then drop_key key r else (k, v) :: drop_key key r
  end.

(** [headers[key] = value]: the first pair of that key is replaced where
    it stands and later ones are removed; a new key goes to the end. *)
Fixpoint set (key value : string) (h : t) : t :=
  match h with
  | [] => [(key, value)]
  | (k, v) :: r =>
      if same_key k key then (key, value) :: drop_key key r
      else (k, v) :: set key value r
  end.

(** [headers.add(key, value)] *)
Definition add (key value : string) (h : t) : t := h ++ [(key, value)].

End Headers.

(** ** Responses, exceptions and the Flask helpers the handler calls *)

Module Flask.

Record response := mk_response {
  status : Z;
  headers : Headers.t;
  body : list Byte.byte
}.

Inductive exn : Type :=
| NotFound              (* werkzeug.exceptions.NotFound *)
| FileNotFoundError
| IsADirectoryError.

Inductive result (A : Type) : Type :=
| Ok (a : A)
| Raise (e : exn).
Arguments Ok {A} a.
Arguments Raise {A} e.

(** [werkzeug.security.safe_join(directory, filename)] on POSIX, where
    there are no alternative separators. *)
Definition safe_join (directory filename : string) : option string :=
  let directory := if Str.truthy directory then directory else "." in
  let filename :=
    if Str.truthy filename then PosixPath.normpath filename else filename in
  if PosixPath.isabs filename
     || Str.startswith filename "/"
     || String.eqb filename ".."
     || Str.startswith filename "../"
  then None
  else Some (PosixPath.join directory filename).

(** [werkzeug.sansio.utils.get_content_type(mimetype, "utf-8")] *)
Definition charset_mimetypes : list string :=
  [ "application/ecmascript"; "application/javascript"; "application/sql";
    "application/xml"; "application/xml-dtd";
    "application/xml-external-parsed-entity" ].

Definition endswith (s suffix : string) : bool :=
  Str.startswith (String.rev s) (String.rev suffix).

Definition get_content_type (mimetype : string) : string :=
  if Str.startswith mimetype "text/"
     || bool_decide (mimetype ∈ charset_mimetypes)
     || endswith mimetype "+xml"
  then mimetype +:+ "; charset=utf-8"
  else mimetype.

Section Host.

(** The type that [mimetypes.guess_type] finds for a file name in the
    host's extension table. *)
Variable guess_type : string -> option string.

(** The HTML page Werkzeug renders for an error status. *)
Variable error_page : Z -> list Byte.byte.

(** [current_app.root_path], which Flask hands to both helpers and
    which they put in front of the path they are given. *)
Variable root_path : string.

Definition mimetype_of (name : string) : string :=
  match guess_type name with
  | Some mimetype => mimetype
  | None => "application/octet-stream"
  end.

Definition content_type_of (path : string) : string :=
  get_content_type (mimetype_of (PosixPath.basename path)).

(** [send_file(path)] as it answers a request without Range and
    conditional headers: 200 and the whole file, with the type guessed from
    its name.  What the other requests get is added by [App.sent].  Of the
    headers only [Content-Type] is kept; length, dates and validators play
    no part below. *)
Definition send_file (fs : FS.t) (path : string) : result response :=
  let path := PosixPath.join root_path path in
  match FS.stat fs path with
  | Some (FS.File data) =>
      Ok {| status := 200;
            headers := [("Content-Type", content_type_of path)];
            body := data |}
  | Some (FS.Dir _) => Raise IsADirectoryError
  | None => Raise FileNotFoundError
  end.

(** [send_from_directory(directory, path)] *)
Definition send_from_directory (fs : FS.t) (directory path : string)
    : result response :=
  match safe_join directory path with
  | None => Raise NotFound
  | Some path_str =>
      let path_str := PosixPath.join root_path path_str in
      if negb (FS.isfile fs path_str) then Raise NotFound
      else send_file fs path_str
  end.

(** The response an exception turns into: [NotFound] renders as 404,
    any other exception as 500 Internal Server Error. *)
Definition error_response (code : Z) : response :=
  {| status := code;
     headers := [("Content-Type", "text/html; charset=utf-8")];
     body := error_page code |}.

Definition handle_exception (e : exn) : response :=
  match e with
  | NotFound => error_response 404
  | FileNotFoundError | IsADirectoryError => error_response 500
  end.

(** [full_dispatch_request] up to the response hooks: the value of the
    view, or the response of the exception it raised. *)
Definition dispatch (r : result response) : response :=
  match r with
  | Ok resp => resp
  | Raise e => handle_exception e
  end.

(** The same with Flask-CORS installed, which wraps the handler of HTTP
    exceptions: the response of [NotFound] passes the CORS hook as soon as
    it is made, before any [after_request] hook. *)
Definition dispatch_with (hook : response -> response)
    (r : result response) : response :=
  match r with
  | Ok resp => resp
  | Raise NotFound => hook (handle_exception NotFound)
  | Raise e => handle_exception e
  end.

End Host.

(** *** Flask-CORS, as [CORS(app)] configures it: every origin and every
    path, with the options left at their defaults. *)

Record cors_options := {
  send_wildcard : bool;
  always_send : bool;
  supports_credentials : bool
}.

Definition default_options : cors_options :=
  {| send_wildcard := false; always_send := true;
     supports_credentials := false |}.

Definition ACL_ORIGIN : string := "Access-Control-Allow-Origin".

(** [get_cors_origins(options, request_origin)] for the origin list
    ["*"], a wildcard that every origin matches. *)
Definition get_cors_origins (options : cors_options)
    (request_origin : option string) : option (list string) :=
  match request_origin with
  | Some origin =>
      if Str.truthy origin then
        if send_wildcard options then Some ["*"] else Some [origin]
      else if always_send options then
        if supports_credentials options then None else Some ["*"]
      else None
  | None =>
      if always_send options then
        if supports_credentials options then None else Some ["*"]
      else None
  end.

(** [cors_after_request(resp)]: a response that already names an allowed
    origin is left alone, otherwise the allowed origins are added.  Of the
    headers Flask-CORS sets, Access-Control-Allow-Origin is the one kept. *)
Definition cors_after_request (request_headers : Headers.t)
    (resp : response) : response :=
  if Str.truthy (Headers.get_default ACL_ORIGIN "" (headers resp)) then resp
  else
    match get_cors_origins default_options
            (Headers.get "Origin" request_headers) with
    | None => resp
    | Some origins =>
        {| status := status resp;
           headers := fold_left (fun h o => Headers.add ACL_ORIGIN o h)
                        origins (headers resp);
           body := body resp |}
    end.

End Flask.

(** ** server.py: the request handler and the response hook *)

Module Server.
Import Flask.

Record request := {
  path : string;               (* what the routes bind to [path] *)
  request_headers : Headers.t
}.

Section App.

Variable guess_type : string -> option string.
Variable error_page : Z -> list Byte.byte.

(** [app.root_path]: the directory server.py lives in, an absolute
    path. *)
Variable root_path : string.

(** [app.static_folder], from [Flask(__name__, static_folder='dist')] *)
Definition static_folder : string := PosixPath.join root_path "dist".

(** The test of line 16. *)
Definition guard (fs : FS.t) (path : string) : bool :=
  Str.truthy path && FS.exists_ fs (PosixPath.join static_folder path).

Definition serve (fs : FS.t) (path : string) : result response :=
  if guard fs path
  then send_from_directory guess_type root_path fs static_folder path
  else send_file guess_type root_path fs
         (PosixPath.join static_folder "index.html").

Definition cache_control (content_type : string) : string :=
  if Str.contains "assets" content_type
  then "public, max-age=31536000"
  else "no-cache".

Definition add_header (response : response) : Flask.response :=
  let h := headers response in
  let h := Headers.set "Cache-Control"
             (cache_control (Headers.get_default "Content-Type" "" h)) h in
  let h := Headers.set "X-Content-Type-Options" "nosniff" h in
  let h := Headers.set "X-Frame-Options" "DENY" h in
  let h := Headers.set "X-XSS-Protection" "1; mode=block" h in
  {| status := status response; headers := h; body := body response |}.

(** What [serve] and [add_header] make of a GET request without Range and
    conditional headers that the router hands to [serve] with [path]: the
    view or its error response, then the [after_request] hook.  The
    requests that go elsewhere are in [App]. *)
Definition respond (fs : FS.t) (path : string) : response :=
  add_header (dispatch error_page (serve fs path)).

(** The same with [CORS(app)]: its hook is registered first and so runs
    last, after [add_header]; on the response of an HTTP exception it has
    run once before. *)
Definition handle (fs : FS.t) (req : request) : response :=
  let cors := cors_after_request (request_headers req) in
  cors (add_header (dispatch_with error_page cors (serve fs (path req)))).

End App.

End Server.

(** ** The application: routes and requests of every kind *)

Module App.
Import Flask Server.

(** A request: its method, the path of its URL as [request.path] has it
    (decoded, with its leading slash), and its headers. *)
Record request := {
  method : string;
  url : string;
  headers_in : Headers.t
}.

(** Where the router sends a GET: to [serve], to the static endpoint
    [/dist/<path:filename>] of Flask, or to neither. *)
Inductive endpoint : Type :=
| View (path : string)
| Static (filename : string)
| NoView.

(** [s.removeprefix(prefix)], when [s] begins with [prefix]. *)
Fixpoint strip_prefix (prefix s : string) : option string :=
  match prefix, s with
  | EmptyString, _ => Some s
  | String a prefix', String b s' =>
      if Ascii.eqb a b then strip_prefix prefix' s' else None
  | String _ _, EmptyString => None
  end.

(** The three rules: [/dist/<path:filename>], [/] with [path = ''], and
    [/<path:path>], the rule with the fixed prefix first.  A [path] part
    is not empty and does not begin with a slash.  URLs with a doubled
    slash, which the router may merge and redirect, and URLs without a
    leading slash are left to [NoView]. *)
Definition route (url : string) : endpoint :=
  match url with
  | String c rest =>
      if negb (Ascii.eqb c Str.slash) || Str.contains "//" url then NoView
      else if negb (Str.truthy rest) then View ""
      else match strip_prefix "dist/" rest with
           | Some filename =>
               if Str.truthy filename then Static filename else View rest
           | None => View rest
           end
  | EmptyString => NoView
  end.

(** The headers [make_conditional] reads (and If-Unmodified-Since, to be
    on the safe side). *)
Definition conditional_headers : list string :=
  [ "Range"; "If-Range"; "If-None-Match"; "If-Match";
    "If-Modified-Since"; "If-Unmodified-Since" ].

Definition is_conditional (h : Headers.t) : bool :=
  existsb (fun key => bool_decide (is_Some (Headers.get key h)))
    conditional_headers.

Section Host.

Variable guess_type : string -> option string.
Variable error_page : Z -> list Byte.byte.
Variable root_path : string.

(** What Werkzeug's [make_conditional] turns the 200 response of
    [send_file] into for a request with Range or conditional headers: 206
    with a part of the file, 304, 412 or 416. *)
Variable conditional : Headers.t -> response -> response.

(** What Flask and Werkzeug answer by themselves, before the hooks, to the
    requests no view of the model gets: other methods (HEAD, OPTIONS, 405)
    and the URLs of [NoView]. *)
Variable elsewhere : request -> response.

(** [send_file] ends with [rv.make_conditional(request)]. *)
Definition sent (h : Headers.t) (r : result response) : result response :=
  match r with
  | Ok resp => Ok (if is_conditional h then conditional h resp else resp)
  | Raise e => Raise e
  end.

(** [send_static_file(filename)], the view of the static endpoint. *)
Definition send_static_file (fs : FS.t) (filename : string)
    : result response :=
  send_from_directory guess_type root_path fs (static_folder root_path)
    filename.

(** The response before the [after_request] hooks. *)
Definition view (fs : FS.t) (req : request) : response :=
  let cors := cors_after_request (headers_in req) in
  if String.eqb (method req) "GET" then
    match route (url req) with
    | View path =>
        dispatch_with error_page cors
          (sent (headers_in req) (serve guess_type root_path fs path))
    | Static filename =>
        dispatch_with error_page cors
          (sent (headers_in req) (send_static_file fs filename))
    | NoView => elsewhere req
    end
  else elsewhere req.

(** What the application answers: [add_header], then the CORS hook. *)
Definition answer (fs : FS.t) (req : request) : response :=
  cors_after_request (headers_in req) (add_header (view fs req)).

End Host.

End App.

(** ** The scripts as processes *)

Module Proc.

(** What a script does to the outside, in order. *)
Inductive event : Type :=
| Print (text : string)
| System (command : string)              (* os.system *)
| Run (argv : list string)               (* subprocess.run *)
| Listen (host : string) (port : Z) (debug threaded : bool). (* app.run *)

Inductive exn : Type :=
| KeyboardInterrupt
| SystemExit (code : Z)
| FileNotFoundError
| OSError.

(** How the child of [subprocess.run] ends: by itself with a return
    code, by the operator's interrupt (raised in the parent when the wait
    is abandoned), or it never starts because the command is missing. *)
Inductive child : Type :=
| Exits (returncode : Z)
| Interrupted
| Missing.

(** How [app.run] ends: Werkzeug's [serve_forever] absorbs the
    operator's interrupt and returns; a busy port raises. *)
Inductive listener : Type :=
| StoppedByInterrupt
| AddressInUse.

Record world := {
  build : Z;              (* exit status of the command of [os.system] *)
  dev_server : child;
  http : listener
}.

Definition M (A : Type) : Type :=
  world -> list event -> list event * (A + exn).

#[export] Instance ret : MRet M := fun A a _ t => (t, inl a).

#[export] Instance bind : MBind M := fun A B k m w t =>
  match m w t with
  | (t', inl a) => k a w t'
  | (t', inr e) => (t', inr e)
  end.

Definition raise {A} (e : exn) : M A := fun _ t => (t, inr e).

Definition print (text : string) : M unit :=
  fun _ t => (t ++ [Print text], inl tt).

Definition os_system (command : string) : M Z :=
  fun w t => (t ++ [System command], inl (build w)).

Definition subprocess_run (argv : list string) : M Z :=
  fun w t =>
    (t ++ [Run argv],
     match dev_server w with
     | Exits returncode => inl returncode
     | Interrupted => inr KeyboardInterrupt
     | Missing => inr FileNotFoundError
     end).

Definition app_run (host : string) (port : Z) (debug threaded : bool)
    : M unit :=
  fun w t =>
    (t ++ [Listen host port debug threaded],
     match http w with
     | StoppedByInterrupt => inl tt
     | AddressInUse => inr OSError
     end).

Definition sys_exit {A} (code : Z) : M A := raise (SystemExit code).

(** [try: body except KeyboardInterrupt: handler] *)
Definition try_except_KeyboardInterrupt {A} (body handler : M A) : M A :=
  fun w t =>
    match body w t with
    | (t', inr KeyboardInterrupt) => handler w t'
    | r => r
    end.

(** The exit status of the interpreter: 0 at the end of the script, the
    code of [sys.exit], 130 for an interrupt nobody caught, 1 for any
    other exception. *)
Definition exit_status (r : unit + exn) : Z :=
  match r with
  | inl _ => 0
  | inr (SystemExit code) => code
  | inr KeyboardInterrupt => 130
  | inr _ => 1
  end.

Definition run (script : M unit) (w : world) : list event * Z :=
  let (t, r) := script w [] in (t, exit_status r).

Definition output (t : list event) : list string :=
  omap (fun e => match e with Print s => Some s | _ => None end) t.

End Proc.

Definition nl : string := String "010"%char "".

(** ** Testing.py *)

Module Launcher.
Import Proc.

Definition shutdown_message : string := nl +:+ nl +:+ "✅ Server stopped".

Definition main : M unit :=
  print (nl +:+ Str.times "=" 60) ;;
  print "🚀 IGNITEX TEST SERVER" ;;
  print (Str.times "=" 60) ;;
  print (nl +:+ "📋 INSTRUCTIONS:") ;;
  print "   1. Server will start in 3 seconds" ;;
  print "   2. Look for: ➜  Local:   http://localhost:8080/" ;;
  print "   3. COPY that URL" ;;
  print "   4. PASTE it in your browser" ;;
  print (nl +:+ "💡 Press CTRL+C to stop server") ;;
  print (Str.times "=" 60 +:+ nl) ;;
  try_except_KeyboardInterrupt
    (subprocess_run ["npm"; "run"; "dev"] ;; mret tt)
    (print shutdown_message ;; sys_exit 0).

End Launcher.

(** ** server.py: the start-up block *)

Module Startup.
Import Proc.

Definition main : M unit :=
  print (nl +:+ "🚀 IgniteX Test Server Starting...") ;;
  print "📦 Building production bundle first..." ;;
  os_system "npm run build" ;;
  print (nl +:+ "✅ Build complete!") ;;
  print "🌐 Server running at: http://localhost:5000" ;;
  print "🌐 Network access: http://0.0.0.0:5000" ;;
  print (nl +:+ "Press CTRL+C to stop" +:+ nl) ;;
  app_run "0.0.0.0" 5000 false true.

End Startup.

(** ** Notions the statements use *)

Module Spec.
Import Str PosixPath Flask Server.

(** A component that names an entry: not skipped, not [".."]. *)
Definition plain (c : string) : Prop :=
  is_skip c = false /\ String.eqb c ".." = false.

(** What [safe_join] accepts of a path: it is relative and its normal
    form does not begin with a parent-directory component. *)
Definition stays_inside (path : string) : bool :=
  negb (isabs path)
  && negb (String.eqb (normpath path) "..")
  && negb (startswith (normpath path) "../").

(** The name a file goes by in its directory. *)
Definition name_of (fs : FS.t) (path : string) : option string :=
  match FS.resolve fs path with
  | Some l => last l
  | None => None
  end.

(** The response carries exactly one header [key], of value [value]. *)
Definition has_header (resp : response) (key value : string) : Prop :=
  Headers.getlist key (headers resp) = [value].

(** The four headers of [add_header]. *)
Definition hardened (resp : response) : Prop :=
  (has_header resp "Cache-Control" "public, max-age=31536000"
   \/ has_header resp "Cache-Control" "no-cache")
  /\ has_header resp "X-Content-Type-Options" "nosniff"
  /\ has_header resp "X-Frame-Options" "DENY"
  /\ has_header resp "X-XSS-Protection" "1; mode=block".

(** The response is 200 with the bytes of the file [file]. *)
Definition answers_with (resp : response) (fs : FS.t) (file : string)
    : Prop :=
  exists data, FS.read fs file = Some data
               /\ status resp = 200%Z /\ body resp = data.

(** The long-lived cache header goes with the content types that contain
    ["assets"], [no-cache] with all others. *)
Definition cache_rule (resp : response) : Prop :=
  let content_type := Headers.get_default "Content-Type" "" (headers resp) in
  let has_assets :=
    exists before after, content_type = before +:+ "assets" +:+ after in
  (has_assets /\ has_header resp "Cache-Control" "public, max-age=31536000")
  \/ (~ has_assets /\ has_header resp "Cache-Control" "no-cache").


(** A GET request. *)
Definition get_request (url : string) (h : Headers.t) : App.request :=
  {| App.method := "GET"; App.url := url; App.headers_in := h |}.

(** The readings of the specification that the code does not bear out, for
    an application [answer] and a request [req] for [/path]: a path that
    names a file is answered with its bytes; a path that names no file of
    the asset tree is answered with the entry document. *)
Definition existing_file_is_served (answer : App.request -> response)
    (root_path : string) (fs : FS.t) (req : App.request) (path : string)
    : Prop :=
  App.url req = "/" +:+ path ->
  truthy path = true ->
  forall data,
    FS.read fs (PosixPath.join (static_folder root_path) path) = Some data ->
    status (answer req) = 200%Z /\ body (answer req) = data.

Definition non_file_gets_entry (answer : App.request -> response)
    (root_path : string) (fs : FS.t) (req : App.request) (path : string)
    : Prop :=
  App.url req = "/" +:+ path ->
  ~ (FS.isfile fs (PosixPath.join (static_folder root_path) path) = true
     /\ FS.within fs (static_folder root_path)
          (PosixPath.join (static_folder root_path) path) = true) ->
  answers_with (answer req) fs
    (PosixPath.join (static_folder root_path) "index.html").

Definition is_print (e : Proc.event) : Prop :=
  match e with Proc.Print _ => True | _ => False end.

(** What a script prints once its long-running call (the child of
    [subprocess.run], the listener of [app.run]) has been entered. *)
Fixpoint after_start (t : list Proc.event) : list Proc.event :=
  match t with
  | [] => []
  | Proc.Run _ :: r => r
  | Proc.Listen _ _ _ _ :: r => r
  | _ :: r => after_start r
  end.

Definition shutdown_output (t : list Proc.event) : list string :=
  Proc.output (after_start t).

(** Exit status 0 and a message on the way out. *)
Definition clean_stop (script : Proc.M unit) (w : Proc.world) : Prop :=
  snd (Proc.run script w) = 0%Z
  /\ shutdown_output (fst (Proc.run script w)) <> [].

(** The headers other than the four of [add_header], in their order. *)
Definition other_headers (h : Headers.t) : Headers.t :=
  Headers.drop_key "X-XSS-Protection"
    (Headers.drop_key "X-Frame-Options"
       (Headers.drop_key "X-Content-Type-Options"
          (Headers.drop_key "Cache-Control" h))).

(** Some non-empty end of [needle] begins [s]. *)
Fixpoint overlaps (s needle : string) : bool :=
  match needle with
  | EmptyString => false
  | String _ rest => startswith s needle || overlaps s rest
  end.

(** No type of the extension table contains ["assets"]. *)
Definition table_without_assets (guess_type : string -> option string)
    : Prop :=
  forall name mimetype,
    guess_type name = Some mimetype -> contains "assets" mimetype = false.

(** Worlds that differ in one respect. *)
Definition with_build (status : Z) (w : Proc.world) : Proc.world :=
  {| Proc.build := status; Proc.dev_server := Proc.dev_server w;
     Proc.http := Proc.http w |}.

Definition with_child (c : Proc.child) (w : Proc.world) : Proc.world :=
  {| Proc.build := Proc.build w; Proc.dev_server := c;
     Proc.http := Proc.http w |}.

Definition with_listener (l : Proc.listener) (w : Proc.world) : Proc.world :=
  {| Proc.build := Proc.build w; Proc.dev_server := Proc.dev_server w;
     Proc.http := l |}.

End Spec.

(** ** A host to run the model on *)

Module Example.

Definition bytes (s : string) : list Byte.byte := String.list_byte_of_string s.

(** [/srv/app] holds server.py and the build output [dist]. *)
Definition dist : FS.node :=
  FS.Dir (list_to_map
    [ ("index.html", FS.File (bytes "<!doctype html><div id=root></div>"));
      ("style.css", FS.File (bytes "body{margin:0}"));
      ("assets", FS.Dir (list_to_map
         [ ("app.js", FS.File (bytes "console.log(1)")) ])) ]).

Definition tree : FS.node :=
  FS.Dir (list_to_map
    [ ("srv", FS.Dir (list_to_map
         [ ("app", FS.Dir (list_to_map
              [ ("server.py", FS.File (bytes "app.run()"));
                ("dist", dist) ])) ])) ]).

Definition fs : FS.t := FS.mk tree [].

Definition root_path : string := "/srv/app".

Definition guess_type (name : string) : option string :=
  if Flask.endswith name ".css" then Some "text/css"
  else if Flask.endswith name ".html" then Some "text/html"
  else if Flask.endswith name ".js" then Some "text/javascript"
  else None.

Definition error_page (code : Z) : list Byte.byte :=
  if (code =? 404)%Z then bytes "<h1>Not Found</h1>"
  else bytes "<h1>Internal Server Error</h1>".

Definition respond : string -> Flask.response :=
  Server.respond guess_type error_page root_path fs.


Definition world (status : Z) (c : Proc.child) : Proc.world :=
  {| Proc.build := status; Proc.dev_server := c; Proc.http := Proc.StoppedByInterrupt |}.

(** A build output with a directory [dist] of its own. *)
Definition nested : FS.t :=
  FS.mk
    (FS.Dir (list_to_map
      [ ("srv", FS.Dir (list_to_map
           [ ("app", FS.Dir (list_to_map
                [ ("dist", FS.Dir (list_to_map
                     [ ("index.html", FS.File (bytes "<!doctype html>"));
                       ("dist", FS.Dir (list_to_map
                          [ ("only.txt", FS.File (bytes "nested")) ])) ]))
                ])) ])) ]))
    [].

(** A stand-in for [make_conditional] that knows one request,
    [Range: bytes=0-3], and answers it as Werkzeug does, 206 with the first
    four bytes. *)
Definition conditional (h : Headers.t) (resp : Flask.response)
    : Flask.response :=
  if String.eqb (Headers.get_default "Range" "" h) "bytes=0-3"
  then {| Flask.status := 206;
          Flask.headers := Headers.set "Content-Range" "bytes 0-3/*"
                             (Flask.headers resp);
          Flask.body := take 4 (Flask.body resp) |}
  else resp.

(** A stand-in for the answers of the framework itself. *)
Definition elsewhere (req : App.request) : Flask.response :=
  Flask.error_response error_page 405.

Definition answer (fs : FS.t) : App.request -> Flask.response :=
  App.answer guess_type error_page root_path conditional elsewhere fs.

End Example.

(** * Properties *)

(** ** Strings *)

Module StrFacts.
Import Str.

Lemma str_app_cons c s t : String c s +:+ t = String c (s +:+ t).
Proof. reflexivity. Qed.

(** [startswith] is being of the form [p ++ rest]. *)
Lemma startswith_spec s p :
  startswith s p = true <-> exists rest, s = p +:+ rest.
Proof.
  unfold startswith. revert s.
  induction p as [|c p IH]; intros s.
  - simpl. split; [intros _; by exists s | by destruct s].
  - destruct s as [|d s]; simpl.
    + split; [discriminate | intros [rest H]; discriminate].
    + destruct (ascii_dec c d) as [->|Hne].
      * rewrite IH. split; intros [rest H]; exists rest.
        -- rewrite str_app_cons. by f_equal.
        -- rewrite str_app_cons in H. by injection H.
      * split; [discriminate|]. intros [rest H].
        rewrite str_app_cons in H. congruence.
Qed.

Lemma startswith_char x a t :
  startswith (String a t) (String x "") = Ascii.eqb a x.
Proof.
  unfold startswith. simpl. destruct (ascii_dec x a) as [->|Hne].
  - rewrite Ascii.eqb_refl. by destruct t.
  - symmetry. apply Ascii.eqb_neq. congruence.
Qed.

Lemma contains_nil needle : contains needle "" = startswith "" needle.
Proof. unfold startswith. simpl. apply orb_false_r. Qed.

Lemma contains_cons needle c hay :
  contains needle (String c hay) =
  startswith (String c hay) needle || contains needle hay.
Proof. reflexivity. Qed.

(** [needle in hay] is being of the form [before ++ needle ++ after]. *)
Lemma contains_spec needle hay :
  contains needle hay = true <->
  exists before after, hay = before +:+ needle +:+ after.
Proof.
  induction hay as [|c hay IH].
  - rewrite contains_nil, startswith_spec. split.
    + intros [rest H]. by exists "", rest.
    + intros [[|d before] [after H]].
      * by exists after.
      * rewrite str_app_cons in H. discriminate.
  - rewrite contains_cons, orb_true_iff, startswith_spec, IH. split.
    + intros [[rest H]|[before [after H]]].
      * by exists "", rest.
      * exists (String c before), after. rewrite str_app_cons. by f_equal.
    + intros [[|d before] [after H]].
      * left. by exists after.
      * right. rewrite str_app_cons in H. injection H as -> ->.
        by exists before, after.
Qed.

Lemma split_nonempty s : split s ≠ [].
Proof.
  destruct s as [|c s]; simpl; [done|].
  destruct (Ascii.eqb c slash); [done|]. by destruct (split s).
Qed.

(** Splitting at a slash splits the list of fields. *)
Lemma split_app a b : split (a +:+ String slash b) = split a ++ split b.
Proof.
  induction a as [|c a IH]; [reflexivity|].
  rewrite str_app_cons. simpl. rewrite IH.
  destruct (Ascii.eqb c slash); [reflexivity|].
  pose proof (split_nonempty a). by destruct (split a).
Qed.

Lemma has_slash_cons c s :
  has_slash (String c s) = Ascii.eqb c slash || has_slash s.
Proof. reflexivity. Qed.

Lemma split_fields s : Forall (fun c => has_slash c = false) (split s).
Proof.
  induction s as [|c s IH]; simpl; [by constructor|].
  destruct (Ascii.eqb c slash) eqn:E; [by constructor|].
  destruct (split s) as [|h r]; [by constructor; [rewrite has_slash_cons, E|]|].
  inversion IH; subst. constructor; [|done].
  by rewrite has_slash_cons, E.
Qed.

Lemma split_field s : has_slash s = false -> split s = [s].
Proof.
  induction s as [|c s IH]; [done|].
  rewrite has_slash_cons. intros [E H]%orb_false_iff.
  simpl. by rewrite E, (IH H).
Qed.

Lemma split_join comps :
  comps ≠ [] -> Forall (fun c => has_slash c = false) comps ->
  split (join comps) = comps.
Proof.
  induction comps as [|c r IH]; [done|]. intros _ Hall.
  inversion Hall as [|? ? Hc Hr]; subst.
  destruct r as [|c' r]; [by apply split_field|].
  change (join (c :: c' :: r)) with (c +:+ String slash (join (c' :: r))).
  by rewrite split_app, (split_field c Hc), IH.
Qed.

End StrFacts.

(** ** Lexical normalisation against the walk through the tree *)

Module PathFacts.
Import Str StrFacts PosixPath Spec.

Lemma removelast_snoc {A} (l : list A) x : removelast (l ++ [x]) = l.
Proof. apply removelast_last. Qed.

Lemma last_is_dotdot_snoc l x :
  last_is_dotdot (l ++ [x]) = String.eqb x "..".
Proof. unfold last_is_dotdot. by rewrite last_snoc. Qed.

Lemma norm_step_skip n nc c : is_skip c = true -> norm_step n nc c = nc.
Proof. unfold norm_step. by intros ->. Qed.

Lemma norm_step_plain n nc c : plain c -> norm_step n nc c = nc ++ [c].
Proof. unfold norm_step. by intros [-> ->]. Qed.

Lemma is_skip_dotdot : is_skip ".." = false.
Proof. reflexivity. Qed.

Lemma norm_step_dotdot_empty : norm_step 0 [] ".." = [".."].
Proof. reflexivity. Qed.

Lemma norm_step_dotdot_snoc n nc x :
  String.eqb x ".." = false -> norm_step n (nc ++ [x]) ".." = nc.
Proof.
  intros Hx. unfold norm_step. rewrite is_skip_dotdot. simpl negb.
  rewrite last_is_dotdot_snoc, Hx, removelast_snoc.
  rewrite bool_decide_eq_false_2; [|by destruct nc].
  by rewrite andb_false_r.
Qed.

(** Three kinds of component. *)
Lemma comp_cases c : is_skip c = true \/ c = ".." \/ plain c.
Proof.
  destruct (is_skip c) eqn:Hs; [by left|right].
  destruct (String.eqb c "..") eqn:Hd; [left; by apply String.eqb_eq|].
  by right.
Qed.

(** Once the normal form begins with [".."] it keeps doing so. *)
Lemma dotdot_stays_step nc c rest :
  nc = ".." :: rest ->
  exists rest', norm_step 0 nc c = ".." :: rest'.
Proof.
  intros ->. unfold norm_step.
  destruct (is_skip c); [by eexists|].
  destruct (negb (String.eqb c "..") || _ || _) eqn:E; [by eexists|].
  apply orb_false_iff in E as [_ Hlast].
  destruct rest as [|y rest]; [done|].
  exists (removelast (y :: rest)). reflexivity.
Qed.

Lemma dotdot_stays comps : forall nc rest,
  nc = ".." :: rest ->
  exists rest', fold_left (norm_step 0) comps nc = ".." :: rest'.
Proof.
  induction comps as [|c comps IH]; intros nc rest Hnc; simpl.
  - by exists rest.
  - destruct (dotdot_stays_step nc c rest Hnc) as [rest' H'].
    by apply (IH _ rest').
Qed.

Section Walk.
Variable fs : FS.t.

Lemma walk_app cur a b :
  FS.walk fs cur (a ++ b) =
  match FS.walk fs cur a with
  | Some mid => FS.walk fs mid b
  | None => None
  end.
Proof.
  revert cur. induction a as [|c a IH]; intros cur; simpl; [done|].
  destruct (FS.step fs cur c); [apply IH | done].
Qed.

Lemma step_skip cur c l :
  is_skip c = true -> FS.step fs cur c = Some l -> l = cur.
Proof.
  unfold FS.step. intros ->. destruct (FS.is_dir_at fs cur); congruence.
Qed.

Lemma step_dotdot cur l :
  FS.step fs cur ".." = Some l -> l = removelast cur.
Proof.
  unfold FS.step. rewrite is_skip_dotdot. simpl.
  destruct (FS.is_dir_at fs cur); congruence.
Qed.

Lemma step_plain cur c l :
  plain c -> FS.step fs cur c = Some l -> l = cur ++ [c].
Proof.
  unfold FS.step. intros [-> ->].
  destruct (FS.is_dir_at fs cur); [|done].
  destruct (FS.lookup _ _); congruence.
Qed.

(** Along a successful walk from [base], the normal form either has
    begun with [".."], or it consists of names and spells out where the
    walk stands below [base]. *)
Lemma walk_norm comps : forall nc cur base l,
  Forall plain nc -> cur = base ++ nc ->
  FS.walk fs cur comps = Some l ->
  let nc' := fold_left (norm_step 0) comps nc in
  (Forall plain nc' /\ l = base ++ nc') \/ (exists rest, nc' = ".." :: rest).
Proof.
  induction comps as [|c comps IH]; intros nc cur base l Hnc -> Hwalk; simpl.
  - left. simpl in Hwalk. split; congruence.
  - simpl in Hwalk.
    destruct (FS.step fs (base ++ nc) c) as [cur'|] eqn:Hstep; [|done].
    destruct (comp_cases c) as [Hs|[->|Hp]].
    + rewrite norm_step_skip by done.
      apply (step_skip _ _ _ Hs) in Hstep as ->.
      by apply (IH nc (base ++ nc) base l).
    + apply step_dotdot in Hstep as ->.
      destruct nc as [|x nc _] using rev_ind.
      * right. rewrite norm_step_dotdot_empty. by apply (dotdot_stays _ _ []).
      * apply Forall_app in Hnc as [Hnc Hx].
        rewrite Forall_singleton in Hx. destruct Hx as [_ Hx].
        rewrite norm_step_dotdot_snoc by done.
        apply (IH nc (removelast (base ++ nc ++ [x])) base l); [done| |done].
        by rewrite app_assoc, removelast_snoc.
    + rewrite norm_step_plain by done.
      apply (step_plain _ _ _ Hp) in Hstep as ->.
      apply (IH (nc ++ [c]) ((base ++ nc) ++ [c]) base l);
        [|by rewrite <- app_assoc|done].
      apply Forall_app. split; [done|]. by apply Forall_singleton.
Qed.

End Walk.

End PathFacts.

(** ** Header lists *)

Module HeaderFacts.
Import Headers.

Lemma same_key_spec a b : same_key a b = true <-> Str.lower a = Str.lower b.
Proof. apply String.eqb_eq. Qed.

Lemma same_key_trans_false a b c :
  same_key a b = true -> same_key b c = false -> same_key a c = false.
Proof.
  intros Hab%same_key_spec Hbc. unfold same_key in *. by rewrite Hab.
Qed.

Lemma same_key_both a b c :
  same_key a c = true -> same_key b c = true -> same_key a b = true.
Proof.
  intros Hac%same_key_spec Hbc%same_key_spec. apply same_key_spec. congruence.
Qed.

Lemma get_getlist key h : get key h = head (getlist key h).
Proof.
  induction h as [|[k v] r IH]; simpl; [done|].
  by destruct (same_key k key).
Qed.

Lemma getlist_drop_same key key' h :
  same_key key' key = true -> getlist key (drop_key key' h) = [].
Proof.
  intros Heq. induction h as [|[k v] r IH]; simpl; [done|].
  destruct (same_key k key') eqn:E; simpl; [done|].
  destruct (same_key k key) eqn:E'; [|done].
  by rewrite (same_key_both _ _ _ E' Heq) in E.
Qed.

Lemma getlist_drop_other key key' h :
  same_key key' key = false -> getlist key (drop_key key' h) = getlist key h.
Proof.
  intros Hne. induction h as [|[k v] r IH]; simpl; [done|].
  destruct (same_key k key') eqn:E; simpl.
  - by rewrite (same_key_trans_false _ _ _ E Hne).
  - by rewrite IH.
Qed.

(** After [headers[key'] = v] the key [key'] has the one value [v] and
    every other key has the values it had. *)
Lemma getlist_set key key' v h :
  getlist key (set key' v h) =
  if same_key key' key then [v] else getlist key h.
Proof.
  induction h as [|[k0 v0] r IH]; simpl.
  - by destruct (same_key key' key).
  - destruct (same_key k0 key') eqn:E; simpl.
    + destruct (same_key key' key) eqn:E'.
      * by rewrite getlist_drop_same.
      * rewrite (same_key_trans_false _ _ _ E E').
        by apply getlist_drop_other.
    + rewrite IH. destruct (same_key key' key) eqn:E'; [|done].
      destruct (same_key k0 key) eqn:E''; [|done].
      by rewrite (same_key_both _ _ _ E'' E') in E.
Qed.

Lemma getlist_add key key' v h :
  getlist key (add key' v h) =
  getlist key h ++ (if same_key key' key then [v] else []).
Proof.
  unfold add. induction h as [|[k0 v0] r IH]; simpl; [done|].
  rewrite IH. by destruct (same_key k0 key).
Qed.

End HeaderFacts.

(** ** The tree *)

Module FSFacts.
Import Str StrFacts PosixPath Spec PathFacts.

Lemma lookup_app n a b :
  FS.lookup n (a ++ b) =
  match FS.lookup n a with
  | Some m => FS.lookup m b
  | None => None
  end.
Proof.
  revert n. induction a as [|c a IH]; intros n; simpl; [done|].
  destruct n as [|entries]; [done|].
  destruct (entries !! c); [apply IH | done].
Qed.

(** What lies above an existing location is a directory. *)
Lemma lookup_above n a c b :
  is_Some (FS.lookup n (a ++ c :: b)) ->
  exists entries, FS.lookup n a = Some (FS.Dir entries).
Proof.
  rewrite lookup_app. destruct (FS.lookup n a) as [[data|entries]|].
  - simpl. by intros [? ?].
  - by exists entries.
  - by intros [? ?].
Qed.

Lemma lookup_prefix n a b :
  is_Some (FS.lookup n (a ++ b)) -> is_Some (FS.lookup n a).
Proof.
  rewrite lookup_app. destruct (FS.lookup n a); [by eexists|by intros [? ?]].
Qed.

Section Walk.
Variable fs : FS.t.

(** Names that spell an existing location can be walked. *)
Lemma walk_down comps : forall cur,
  Forall plain comps ->
  is_Some (FS.lookup (FS.root fs) (cur ++ comps)) ->
  FS.walk fs cur comps = Some (cur ++ comps).
Proof.
  induction comps as [|c comps IH]; intros cur Hall Hex; simpl.
  - by rewrite app_nil_r.
  - inversion Hall as [|? ? [Hs Hd] Hr]; subst.
    destruct (lookup_above _ _ _ _ Hex) as [entries Hdir].
    assert (Hc : is_Some (FS.lookup (FS.root fs) (cur ++ [c]))).
    { apply (lookup_prefix _ _ comps). by rewrite <- app_assoc. }
    unfold FS.step, FS.is_dir_at. rewrite Hdir, Hs, Hd.
    destruct Hc as [m ->].
    rewrite IH; [by rewrite <- app_assoc|done|by rewrite <- app_assoc].
Qed.

Lemma isabs_app d x : truthy d = true -> isabs (d +:+ x) = isabs d.
Proof.
  destruct d as [|c d]; [done|]. intros _.
  rewrite str_app_cons. unfold isabs. by rewrite !startswith_char.
Qed.

Lemma app_not_empty d x : truthy d = true -> String.eqb (d +:+ x) "" = false.
Proof. destruct d; [done|]. intros _. by rewrite str_app_cons. Qed.

(** A path below a directory resolves through that directory. *)
Lemma resolve_under d p :
  truthy d = true ->
  FS.resolve fs (d +:+ String slash p) =
  match FS.resolve fs d with
  | Some r => FS.walk fs r (split p)
  | None => None
  end.
Proof.
  intros Hd. unfold FS.resolve.
  rewrite (app_not_empty _ _ Hd), (isabs_app _ _ Hd), split_app, walk_app.
  by destruct d.
Qed.

Lemma walk_first_dir cur c comps l :
  FS.walk fs cur (c :: comps) = Some l -> FS.is_dir_at fs cur = true.
Proof.
  simpl. unfold FS.step. by destruct (FS.is_dir_at fs cur).
Qed.

End Walk.

End FSFacts.

(** ** [normpath] and [safe_join] *)

Module NormFacts.
Import Str StrFacts PosixPath Spec PathFacts.

Lemma normpath_rel p :
  truthy p = true -> startswith p "/" = false ->
  normpath p =
  let body := Str.join (norm_comps 0 (split p)) in
  if truthy body then body else ".".
Proof.
  intros Hp Hrel. unfold normpath, initial_slashes. rewrite Hrel.
  destruct p; [done|]. reflexivity.
Qed.

Lemma slashes_app n body :
  times "/" (S n) +:+ body = String slash (times "/" n +:+ body).
Proof. reflexivity. Qed.

Lemma normpath_abs p :
  startswith p "/" = true -> startswith (normpath p) "/" = true.
Proof.
  intros Habs. unfold normpath, initial_slashes. rewrite Habs.
  destruct p as [|c p]; [done|].
  replace (String.eqb (String c p) "") with false by (symmetry; by apply String.eqb_neq).
  destruct (startswith (String c p) "//" && negb (startswith (String c p) "///"));
    rewrite slashes_app; cbn [truthy]; apply startswith_spec; eexists; reflexivity.
Qed.

Lemma join_dotdot_head rest :
  Str.join (".." :: rest) = ".." \/
  startswith (Str.join (".." :: rest)) "../" = true.
Proof.
  destruct rest as [|c rest]; [by left|right].
  apply startswith_spec. by exists (Str.join (c :: rest)).
Qed.

Lemma join_truthy c rest :
  is_skip c = false -> truthy (Str.join (c :: rest)) = true.
Proof.
  intros Hc. destruct c as [|a c]; [done|].
  destruct rest; [done|]. change (Str.join (String a c :: s :: rest))
    with (String a c +:+ String slash (Str.join (s :: rest))).
  by rewrite str_app_cons.
Qed.

(** What [safe_join] lets through, for a path that is not empty. *)
Lemma safe_join_Some d p q :
  truthy d = true -> truthy p = true ->
  Flask.safe_join d p = Some q ->
  startswith (normpath p) "/" = false /\
  normpath p ≠ ".." /\
  startswith (normpath p) "../" = false /\
  q = PosixPath.join d (normpath p).
Proof.
  intros Hd Hp. unfold Flask.safe_join. rewrite Hd, Hp. unfold isabs.
  destruct (startswith (normpath p) "/") eqn:E1; [done|].
  destruct (String.eqb (normpath p) "..") eqn:E2; [done|].
  destruct (startswith (normpath p) "../") eqn:E3; [done|].
  simpl. intros [= <-]. repeat split. by apply String.eqb_neq.
Qed.

End NormFacts.

(** ** The handler *)

Module ServeFacts.
Import Str StrFacts PosixPath Spec PathFacts FSFacts NormFacts Flask Server.

Lemma ends_name y t :
  truthy t = true -> endswith_slash t = false ->
  truthy (y +:+ t) = true /\ endswith_slash (y +:+ t) = false.
Proof.
  intros Ht He. induction y as [|c y [IH1 IH2]]; [done|].
  rewrite str_app_cons. split; [done|].
  simpl. destruct (y +:+ t); [done|]. exact IH2.
Qed.

Lemma static_folder_shape root_path :
  truthy (static_folder root_path) = true /\
  endswith_slash (static_folder root_path) = false.
Proof.
  unfold static_folder, PosixPath.join.
  replace (startswith "dist" "/") with false by reflexivity.
  destruct (negb (truthy root_path) || endswith_slash root_path);
    by apply ends_name.
Qed.

Lemma join_abs a b : startswith b "/" = true -> PosixPath.join a b = b.
Proof. unfold PosixPath.join. by intros ->. Qed.

Lemma join_rel d p :
  truthy d = true -> endswith_slash d = false -> startswith p "/" = false ->
  PosixPath.join d p = d +:+ String slash p.
Proof. unfold PosixPath.join. by intros -> -> ->. Qed.

Lemma first_not_slash c rest :
  is_skip c = false -> has_slash c = false ->
  startswith (Str.join (c :: rest)) "/" = false.
Proof.
  intros Hs Hc. destruct c as [|a c]; [done|].
  rewrite has_slash_cons in Hc. apply orb_false_iff in Hc as [Ha _].
  assert (Hpre : forall t, startswith (String a t) "/" = false).
  { intros t. by rewrite startswith_char. }
  destruct rest as [|c' rest]; [apply Hpre|].
  change (Str.join (String a c :: c' :: rest))
    with (String a c +:+ String slash (Str.join (c' :: rest))).
  rewrite str_app_cons. apply Hpre.
Qed.

Lemma norm_step_names n nc c :
  has_slash c = false ->
  Forall (fun x => is_skip x = false /\ has_slash x = false) nc ->
  Forall (fun x => is_skip x = false /\ has_slash x = false) (norm_step n nc c).
Proof.
  intros Hc Hnc. unfold norm_step.
  destruct (is_skip c) eqn:Hs; [done|].
  destruct (_ || _).
  - apply Forall_app. split; [done|]. by apply Forall_singleton.
  - destruct nc as [|x nc _] using rev_ind; [done|].
    rewrite removelast_snoc. by apply Forall_app in Hnc as [? _].
Qed.

Lemma norm_names n comps : forall nc,
  Forall (fun x => has_slash x = false) comps ->
  Forall (fun x => is_skip x = false /\ has_slash x = false) nc ->
  Forall (fun x => is_skip x = false /\ has_slash x = false)
    (fold_left (norm_step n) comps nc).
Proof.
  induction comps as [|c comps IH]; intros nc Hall Hnc; simpl; [done|].
  inversion Hall; subst. apply IH; [done|]. by apply norm_step_names.
Qed.

(** The normal form of a relative path is relative. *)
Lemma normpath_rel_rel p :
  truthy p = true -> startswith p "/" = false ->
  startswith (normpath p) "/" = false.
Proof.
  intros Hp Hrel. rewrite (normpath_rel _ Hp Hrel). cbv zeta.
  pose proof (norm_names 0 (split p) [] (split_fields p) (Forall_nil_2 _)) as Hn.
  fold (norm_comps 0 (split p)) in Hn.
  destruct (norm_comps 0 (split p)) as [|c rest]; [done|].
  inversion Hn as [|? ? [Hs Hc] _]; subst.
  rewrite (join_truthy _ _ Hs). by apply first_not_slash.
Qed.

Lemma safe_join_stays d p :
  truthy d = true -> truthy p = true ->
  safe_join d p =
  if stays_inside p then Some (PosixPath.join d (normpath p)) else None.
Proof.
  intros Hd Hp. unfold safe_join, stays_inside, isabs. rewrite Hd, Hp.
  destruct (startswith p "/") eqn:Hrel.
  - by rewrite (normpath_abs _ Hrel).
  - rewrite (normpath_rel_rel _ Hp Hrel). simpl.
    by destruct (String.eqb _ _), (startswith (normpath p) "../").
Qed.

Section App.

Variable guess_type : string -> option string.
Variable error_page : Z -> list Byte.byte.
Variable root_path : string.
Variable fs : FS.t.

#[local] Abbreviation sf := (static_folder root_path).

(** Flask takes the root path through [os.path.abspath]. *)
Hypothesis root_abs : isabs root_path = true.

Lemma static_abs : isabs sf = true.
Proof.
  assert (Ht : truthy root_path = true) by (by destruct root_path).
  unfold static_folder, PosixPath.join.
  replace (startswith "dist" "/") with false by reflexivity.
  rewrite Ht. simpl negb. simpl orb.
  by destruct (endswith_slash root_path); rewrite isabs_app.
Qed.

Lemma below_static_abs x : isabs (PosixPath.join sf x) = true.
Proof.
  destruct (static_folder_shape root_path) as [Ht He].
  destruct (startswith x "/") eqn:E.
  - by rewrite (join_abs _ _ E).
  - rewrite (join_rel _ _ Ht He E), isabs_app by done. apply static_abs.
Qed.

Lemma root_join_below x :
  PosixPath.join root_path (PosixPath.join sf x) = PosixPath.join sf x.
Proof. apply join_abs, below_static_abs. Qed.

Lemma join_static p :
  startswith p "/" = false -> PosixPath.join sf p = sf +:+ String slash p.
Proof.
  destruct (static_folder_shape root_path) as [Ht He].
  by apply join_rel.
Qed.

Lemma resolve_static p :
  startswith p "/" = false ->
  FS.resolve fs (PosixPath.join sf p) =
  match FS.resolve fs sf with
  | Some r => FS.walk fs r (split p)
  | None => None
  end.
Proof.
  intros Hrel. rewrite (join_static _ Hrel).
  apply resolve_under, static_folder_shape.
Qed.

(** The heart of the matter: when the guard's path leads to [l] and
    [safe_join] lets the request through, the joined path leads to the
    same [l], which lies at or below the static folder. *)
Lemma send_location p l q :
  truthy p = true ->
  FS.resolve fs (PosixPath.join sf p) = Some l ->
  is_Some (FS.lookup (FS.root fs) l) ->
  safe_join sf p = Some q ->
  FS.resolve fs q = Some l /\
  (exists r, FS.resolve fs sf = Some r /\ r `prefix_of` l) /\
  (FS.is_dir_at fs l = false -> last l = Some (basename q)).
Proof.
  intros Hp Hres Hex Hsafe.
  destruct (static_folder_shape root_path) as [Ht He].
  destruct (safe_join_Some _ _ _ Ht Hp Hsafe) as (Hn1 & Hn2 & Hn3 & ->).
  assert (Hrel : startswith p "/" = false).
  { destruct (startswith p "/") eqn:E; [|done].
    by rewrite (normpath_abs _ E) in Hn1. }
  rewrite (resolve_static _ Hrel) in Hres.
  rewrite (resolve_static _ Hn1).
  destruct (FS.resolve fs sf) as [r|] eqn:Hr; [|done].
  pose proof (walk_norm fs (split p) [] r r l (Forall_nil_2 _)
                (eq_sym (app_nil_r r)) Hres) as Hnorm.
  cbv zeta in Hnorm. fold (norm_comps 0 (split p)) in Hnorm.
  pose proof (norm_names 0 (split p) [] (split_fields p) (Forall_nil_2 _))
    as Hnames.
  fold (norm_comps 0 (split p)) in Hnames.
  rewrite (normpath_rel _ Hp Hrel) in Hn2, Hn3 |- *. cbv zeta in *.
  destruct Hnorm as [[Hplain ->]|[rest Hdd]].
  - destruct (norm_comps 0 (split p)) as [|c nc] eqn:Hnc.
    + (* the request leads to the static folder itself *)
      assert (Hdir : FS.is_dir_at fs r = true).
      { pose proof (split_nonempty p).
        destruct (split p) as [|c comps] eqn:Hsp; [done|].
        by apply (walk_first_dir fs r c comps (r ++ [])). }
      rewrite app_nil_r. simpl. unfold FS.step. rewrite Hdir. simpl.
      split; [done|]. split; [by exists r|]. congruence.
    + inversion Hplain as [|? ? [Hs Hd] Hrest]; subst.
      rewrite (join_truthy _ _ Hs).
      assert (Hsplit : split (Str.join (c :: nc)) = c :: nc).
      { apply split_join; [done|].
        eapply Forall_impl; [exact Hnames|]. by intros ? [_ ?]. }
      rewrite Hsplit.
      split; [by apply walk_down|].
      split; [exists r; split; [done|by apply prefix_app_r]|].
      intros _. unfold basename.
      rewrite (join_static _ ltac:(by apply first_not_slash;
        inversion Hnames as [|? ? [? ?] ?])).
      rewrite split_app, Hsplit, !last_app.
      by destruct (last (c :: nc)) eqn:El; [|apply last_None in El].
  - exfalso. rewrite Hdd in Hn2, Hn3.
    destruct (join_dotdot_head rest) as [Hj|Hj].
    + rewrite Hj in Hn2. by apply Hn2.
    + assert (Ht' : truthy (Str.join (".." :: rest)) = true)
        by (by apply join_truthy).
      rewrite Ht' in Hn3. congruence.
Qed.

(** What [serve] does with a path that exists. *)
Lemma serve_existing p node :
  truthy p = true ->
  FS.stat fs (PosixPath.join sf p) = Some node ->
  serve guess_type root_path fs p =
  match safe_join sf p, node with
  | Some q, FS.File data =>
      Ok {| status := 200;
            headers := [("Content-Type", content_type_of guess_type q)];
            body := data |}
  | _, _ => Raise NotFound
  end.
Proof.
  intros Hp Hstat. unfold serve, guard, FS.exists_.
  rewrite Hp, Hstat. simpl. unfold send_from_directory.
  destruct (safe_join sf p) as [q|] eqn:Hsafe; [|done].
  assert (Hq_abs : PosixPath.join root_path q = q).
  { destruct (static_folder_shape root_path) as [Ht _].
    destruct (safe_join_Some _ _ _ Ht Hp Hsafe) as (_ & _ & _ & ->).
    apply root_join_below. }
  unfold send_file. cbv zeta. rewrite !Hq_abs.
  unfold FS.stat in Hstat.
  destruct (FS.resolve fs (PosixPath.join sf p)) as [l|] eqn:Hres; [|done].
  destruct (send_location p l q Hp Hres ltac:(by eexists) Hsafe) as [Hq _].
  unfold FS.isfile, FS.stat. rewrite Hq, Hstat.
  by destruct node.
Qed.

End App.

End ServeFacts.

(** ** The response hooks *)

Module HookFacts.
Import Str StrFacts Headers HeaderFacts Flask Server Spec.

Lemma add_header_getlist key response :
  getlist key (headers (add_header response)) =
  if same_key "X-XSS-Protection" key then ["1; mode=block"]
  else if same_key "X-Frame-Options" key then ["DENY"]
  else if same_key "X-Content-Type-Options" key then ["nosniff"]
  else if same_key "Cache-Control" key
       then [cache_control (get_default "Content-Type" "" (headers response))]
       else getlist key (headers response).
Proof. unfold add_header. simpl. by rewrite !getlist_set. Qed.

Lemma add_header_content_type response :
  get_default "Content-Type" "" (headers (add_header response)) =
  get_default "Content-Type" "" (headers response).
Proof.
  unfold get_default. by rewrite !get_getlist, add_header_getlist.
Qed.

Lemma add_header_hardened response : hardened (add_header response).
Proof.
  unfold hardened, has_header. rewrite !add_header_getlist.
  split; [|done]. unfold cache_control.
  destruct (contains _ _); [by left | by right].
Qed.

Lemma add_header_cache_rule response : cache_rule (add_header response).
Proof.
  unfold cache_rule, has_header. cbv zeta.
  rewrite add_header_content_type, add_header_getlist.
  change (same_key "X-XSS-Protection" "Cache-Control") with false.
  change (same_key "X-Frame-Options" "Cache-Control") with false.
  change (same_key "X-Content-Type-Options" "Cache-Control") with false.
  change (same_key "Cache-Control" "Cache-Control") with true.
  cbv iota. unfold cache_control.
  destruct (contains "assets" _) eqn:E.
  - left. split; [by apply contains_spec|done].
  - right. split; [|done]. intros H%contains_spec. congruence.
Qed.

Lemma fold_add_getlist key key' origins : forall h,
  same_key key' key = false ->
  getlist key (fold_left (fun h o => add key' o h) origins h) = getlist key h.
Proof.
  induction origins as [|o origins IH]; intros h Hne; simpl; [done|].
  rewrite IH by done. rewrite getlist_add, Hne. apply app_nil_r.
Qed.

(** Flask-CORS leaves every other header as it was. *)
Lemma cors_getlist_other key request_headers resp :
  same_key ACL_ORIGIN key = false ->
  getlist key (headers (cors_after_request request_headers resp)) =
  getlist key (headers resp).
Proof.
  intros Hne. unfold cors_after_request.
  destruct (truthy _); [done|].
  destruct (get_cors_origins _ _); [|done]. simpl.
  by apply fold_add_getlist.
Qed.

Lemma cors_status request_headers resp :
  status (cors_after_request request_headers resp) = status resp.
Proof.
  unfold cors_after_request. destruct (truthy _); [done|].
  by destruct (get_cors_origins _ _).
Qed.

Lemma cors_body request_headers resp :
  body (cors_after_request request_headers resp) = body resp.
Proof.
  unfold cors_after_request. destruct (truthy _); [done|].
  by destruct (get_cors_origins _ _).
Qed.


Lemma cors_hardened request_headers resp :
  hardened resp -> hardened (cors_after_request request_headers resp).
Proof.
  unfold hardened, has_header. by rewrite !cors_getlist_other.
Qed.

Lemma cors_cache_rule request_headers resp :
  cache_rule resp -> cache_rule (cors_after_request request_headers resp).
Proof.
  unfold cache_rule, has_header, get_default. cbv zeta.
  by rewrite !get_getlist, !cors_getlist_other.
Qed.

End HookFacts.

(** * The specification, claim by claim *)

Import Str StrFacts PosixPath Spec Flask Server.
Import HeaderFacts HookFacts ServeFacts.



Lemma not_found_is_no_answer error_page fs file :
  ~ answers_with (add_header (error_response error_page 404)) fs file.
Proof. intros (data & _ & Hst & _). discriminate. Qed.

(** The scenario of the specification: [style.css] is served as it is,
    with [no-cache], and an unknown route gets what [/] gets. *)
Example scenario_style_css :
  let resp := Example.respond "style.css" in
  status resp = 200%Z /\ body resp = Example.bytes "body{margin:0}" /\
  has_header resp "Content-Type" "text/css; charset=utf-8" /\
  has_header resp "Cache-Control" "no-cache".
Proof. by repeat split. Qed.

Example scenario_unknown_route :
  Example.respond "nonexistent/route" = Example.respond "" /\
  body (Example.respond "")
  = Example.bytes "<!doctype html><div id=root></div>".
Proof. by split. Qed.

(** The file branch of the view: a non-empty path that [safe_join] accepts
    (relative, with a normal form that does not begin with [..]) and that
    names a regular file is answered 200 with the bytes of that file, and
    one Content-Type header, derived from the name of the file. *)
Lemma file_inside_is_served guess_type error_page root_path fs path data :
  isabs root_path = true ->
  truthy path = true ->
  stays_inside path = true ->
  FS.read fs (PosixPath.join (static_folder root_path) path) = Some data ->
  let resp := respond guess_type error_page root_path fs path in
  status resp = 200%Z /\ body resp = data /\
  exists name,
    name_of fs (PosixPath.join (static_folder root_path) path) = Some name /\
    has_header resp "Content-Type"
      (get_content_type (mimetype_of guess_type name)).
Proof.
  intros Habs Hp Hin Hread resp. subst resp. unfold respond.
  unfold FS.read in Hread.
  destruct (FS.stat fs _) as [[data'|]|] eqn:Hstat; try done.
  injection Hread as ->.
  rewrite (serve_existing _ _ _ Habs _ _ Hp Hstat).
  destruct (static_folder_shape root_path) as [Ht _].
  pose proof (safe_join_stays _ _ Ht Hp) as Hsafe. rewrite Hin in Hsafe.
  rewrite Hsafe. simpl dispatch. split; [done|]. split; [done|].
  unfold FS.stat in Hstat. unfold name_of.
  destruct (FS.resolve fs _) as [l|] eqn:Hres; [|done].
  destruct (send_location root_path fs _ _ _ Hp Hres ltac:(by eexists) Hsafe)
    as (_ & _ & Hname).
  exists (basename (PosixPath.join (static_folder root_path) (normpath path))).
  split.
  - apply Hname. unfold FS.is_dir_at. by rewrite Hstat.
  - unfold has_header. by rewrite add_header_getlist.
Qed.

(** The fallback branch of the view: when the path is empty or
    [join(static_folder, path)] does not exist, and the entry document is
    there, the answer is 200 with the bytes of [index.html] and no Location
    header. *)
Lemma missing_path_gets_entry guess_type error_page root_path fs path data :
  isabs root_path = true ->
  truthy path = false
  \/ FS.exists_ fs (PosixPath.join (static_folder root_path) path) = false ->
  FS.read fs (PosixPath.join (static_folder root_path) "index.html")
  = Some data ->
  let resp := respond guess_type error_page root_path fs path in
  status resp = 200%Z /\ body resp = data /\
  Headers.getlist "Location" (headers resp) = [].
Proof.
  intros Habs Hguard Hread resp. subst resp. unfold respond, serve.
  assert (Hg : guard root_path fs path = false).
  { unfold guard. destruct Hguard as [-> | ->]; [done|apply andb_false_r]. }
  rewrite Hg. unfold send_file. cbv zeta.
  rewrite (root_join_below _ Habs). unfold FS.read in Hread.
  destruct (FS.stat fs _) as [[data'|]|]; try done.
  injection Hread as ->. simpl dispatch.
  split; [done|]. split; [done|]. by rewrite add_header_getlist.
Qed.

(** C3: on every response that leaves [add_header], and so on every
    response of the server, Cache-Control is [public, max-age=31536000]
    exactly when the Content-Type of the response contains ["assets"], and
    [no-cache] otherwise.  The rule reads the response alone: the request
    path is no part of it. *)
Theorem cache_control_follows_content_type :
  (forall response, cache_rule (add_header response)) /\
  (forall guess_type error_page root_path fs req,
     cache_rule (handle guess_type error_page root_path fs req)).
Proof.
  split.
  - apply add_header_cache_rule.
  - intros. unfold handle, respond.
    apply cors_cache_rule, add_header_cache_rule.
Qed.

(** C4: every response carries the four fixed headers, each once, whatever
    the path and whichever branch of the handler (file, fallback, 404, 500)
    produced it. *)
Theorem every_response_is_hardened :
  (forall response, hardened (add_header response)) /\
  (forall guess_type error_page root_path fs path,
     hardened (respond guess_type error_page root_path fs path)) /\
  (forall guess_type error_page root_path fs req,
     hardened (handle guess_type error_page root_path fs req)).
Proof.
  split; [apply add_header_hardened|]. split.
  - intros. apply add_header_hardened.
  - intros. apply cors_hardened, add_header_hardened.
Qed.

(** C5: the guard neither normalises nor rejects parent-directory
    components: [../server.py] leads out of [dist] to a file beside it, and
    the guard holds. *)
Theorem guard_follows_parent_segments :
  exists fs path,
    existsb (String.eqb "..") (split path) = true /\
    FS.isfile fs (PosixPath.join (static_folder Example.root_path) path) = true /\
    FS.within fs (static_folder Example.root_path)
      (PosixPath.join (static_folder Example.root_path) path) = false /\
    guard Example.root_path fs path = true.
Proof. exists Example.fs, "../server.py". by repeat split. Qed.

(** C9: a non-empty path that passes the guard and names a directory, or
    leads out of the static folder, is answered 404 by the file branch:
    neither what it names nor the entry document is returned. *)
Theorem unservable_path_is_not_found guess_type error_page root_path fs path :
  isabs root_path = true ->
  truthy path = true ->
  FS.exists_ fs (PosixPath.join (static_folder root_path) path) = true ->
  FS.isdir fs (PosixPath.join (static_folder root_path) path) = true
  \/ FS.within fs (static_folder root_path)
       (PosixPath.join (static_folder root_path) path) = false ->
  let resp := respond guess_type error_page root_path fs path in
  serve guess_type root_path fs path = Raise NotFound /\
  resp = add_header (error_response error_page 404) /\
  status resp = 404%Z /\
  ~ answers_with resp fs (PosixPath.join (static_folder root_path) path) /\
  ~ answers_with resp fs (PosixPath.join (static_folder root_path) "index.html").
Proof.
  intros Habs Hp Hex Hbad resp. subst resp.
  assert (Hserve : serve guess_type root_path fs path = Raise NotFound).
  { unfold FS.exists_ in Hex.
    destruct (FS.stat fs _) as [node|] eqn:Hstat; [|done].
    rewrite (serve_existing _ _ _ Habs _ _ Hp Hstat).
    destruct (safe_join _ _) as [q|] eqn:Hsafe; [|done].
    destruct node as [data|entries]; [|done]. exfalso.
    unfold FS.isdir, FS.within in Hbad. rewrite Hstat in Hbad.
    unfold FS.stat in Hstat.
    destruct (FS.resolve fs (PosixPath.join _ path)) as [l|] eqn:Hres; [|done].
    destruct (send_location root_path fs _ _ _ Hp Hres ltac:(by eexists) Hsafe)
      as (_ & (r & Hr & Hpre) & _).
    rewrite Hr in Hbad. destruct Hbad as [Hbad|Hbad]; [done|].
    by apply bool_decide_eq_false in Hbad. }
  unfold respond. rewrite Hserve. simpl dispatch.
  repeat split; apply not_found_is_no_answer.
Qed.

Lemma unservable_path_is_not_found_witness :
  isabs Example.root_path = true /\
  truthy "../server.py" = true /\
  FS.exists_ Example.fs
    (PosixPath.join (static_folder Example.root_path) "../server.py") = true /\
  (FS.isdir Example.fs
     (PosixPath.join (static_folder Example.root_path) "../server.py") = true
   \/ FS.within Example.fs (static_folder Example.root_path)
        (PosixPath.join (static_folder Example.root_path) "../server.py")
      = false) /\
  let resp := Example.respond "../server.py" in
  serve Example.guess_type Example.root_path Example.fs "../server.py"
  = Raise NotFound /\
  resp = add_header (error_response Example.error_page 404) /\
  status resp = 404%Z /\
  ~ answers_with resp Example.fs
      (PosixPath.join (static_folder Example.root_path) "../server.py") /\
  ~ answers_with resp Example.fs
      (PosixPath.join (static_folder Example.root_path) "index.html").
Proof.
  split; [reflexivity|].
  split; [reflexivity|]. split; [reflexivity|]. split; [right; reflexivity|].
  apply (unservable_path_is_not_found Example.guess_type Example.error_page
           Example.root_path Example.fs "../server.py");
    [reflexivity | reflexivity | reflexivity | right; reflexivity].
Defined.

Lemma dispatch_with_cases error_page hook r :
  dispatch_with error_page hook r = dispatch error_page r
  \/ (r = Raise NotFound
      /\ dispatch_with error_page hook r
         = hook (error_response error_page 404)).
Proof. destruct r as [resp|[| |]]; auto. Qed.





(** C6: the start-up block runs [npm run build] through [os.system], which
    returns only when the command has ended, and starts the listener after
    it; the exit status of the build changes nothing, so the listener is
    started after a failed build as well. *)
Theorem listener_starts_after_any_build w status :
  let t := fst (Proc.run Startup.main (with_build status w)) in
  (exists before between,
     t = before ++ Proc.System "npm run build" :: between
           ++ [Proc.Listen "0.0.0.0" 5000 false true]
     /\ Forall is_print before /\ Forall is_print between)
  /\ t = fst (Proc.run Startup.main w).
Proof.
  destruct w as [b c l]. cbv zeta. split; [|reflexivity].
  eexists [_; _], [_; _; _; _]. split; [reflexivity|].
  split; repeat constructor.
Qed.

(** C7, as stated, fails for the static-file server: interrupted while it
    listens, it exits with status 0 but prints nothing; server.py has no
    shutdown message. *)
Lemma server_prints_no_shutdown_message :
  ~ clean_stop Startup.main (Example.world 0 Proc.Interrupted).
Proof. intros [_ Hout]. by apply Hout. Qed.

(** C7, amended: interrupted while its child runs, the dev-launcher prints
    its shutdown message and exits with status 0; interrupted while it
    listens, the static-file server exits with status 0 and prints
    nothing. *)
Theorem interrupt_stops_both_scripts w :
  (let r := Proc.run Launcher.main (with_child Proc.Interrupted w) in
   snd r = 0%Z /\ shutdown_output (fst r) = [Launcher.shutdown_message]) /\
  (let r := Proc.run Startup.main (with_listener Proc.StoppedByInterrupt w) in
   snd r = 0%Z /\ shutdown_output (fst r) = []).
Proof. destruct w as [b c l]. by repeat split. Qed.

(** C8: the dev-launcher exits with status 0 when its child ends by
    itself, whatever the child's return code, and when the operator
    interrupts it; the return code is not looked at: every return code
    gives the same run. *)
Theorem launcher_exits_zero w returncode :
  snd (Proc.run Launcher.main (with_child (Proc.Exits returncode) w)) = 0%Z /\
  Proc.run Launcher.main (with_child (Proc.Exits returncode) w)
  = Proc.run Launcher.main (with_child (Proc.Exits 0) w) /\
  snd (Proc.run Launcher.main (with_child Proc.Interrupted w)) = 0%Z.
Proof. destruct w as [b c l]. by repeat split. Qed.

(** * Further properties of the two scripts *)

(** ** The outcomes of [serve] *)

Module Outcome.
Import PathFacts FSFacts NormFacts.

Section App.

Variable guess_type : string -> option string.
Variable error_page : Z -> list Byte.byte.
Variable root_path : string.
Variable fs : FS.t.

#[local] Abbreviation sf := (static_folder root_path).

Hypothesis root_abs : isabs root_path = true.

Lemma guard_true p :
  guard root_path fs p = true ->
  truthy p = true /\ exists node, FS.stat fs (PosixPath.join sf p) = Some node.
Proof.
  unfold guard, FS.exists_. intros [Hp Hex]%andb_true_iff. split; [done|].
  destruct (FS.stat fs _) as [node|]; [by exists node|done].
Qed.

(** The file branch, in terms of the path as it was requested. *)
Lemma serve_guarded p :
  guard root_path fs p = true ->
  serve guess_type root_path fs p =
  match (if stays_inside p then FS.read fs (PosixPath.join sf p) else None) with
  | Some data =>
      Ok {| status := 200;
            headers := [("Content-Type",
                          content_type_of guess_type
                            (PosixPath.join sf (normpath p)))];
            body := data |}
  | None => Raise NotFound
  end.
Proof.
  intros Hg. destruct (guard_true p Hg) as [Hp [node Hstat]].
  rewrite (serve_existing _ _ _ root_abs _ _ Hp Hstat).
  destruct (static_folder_shape root_path) as [Ht _].
  rewrite (safe_join_stays _ _ Ht Hp). unfold FS.read. rewrite Hstat.
  destruct (stays_inside p); [|done]. by destruct node.
Qed.

(** The fallback branch. *)
Lemma serve_unguarded p :
  guard root_path fs p = false ->
  serve guess_type root_path fs p =
  match FS.stat fs (PosixPath.join sf "index.html") with
  | Some (FS.File data) =>
      Ok {| status := 200;
            headers := [("Content-Type",
                          content_type_of guess_type
                            (PosixPath.join sf "index.html"))];
            body := data |}
  | Some (FS.Dir _) => Raise IsADirectoryError
  | None => Raise FileNotFoundError
  end.
Proof.
  intros Hg. unfold serve. rewrite Hg. unfold send_file. cbv zeta.
  by rewrite (root_join_below _ root_abs).
Qed.

Lemma within_served p data :
  guard root_path fs p = true -> stays_inside p = true ->
  FS.read fs (PosixPath.join sf p) = Some data ->
  FS.within fs sf (PosixPath.join sf p) = true.
Proof.
  intros Hg Hin Hread. destruct (guard_true p Hg) as [Hp [node Hstat]].
  destruct (static_folder_shape root_path) as [Ht _].
  pose proof (safe_join_stays _ _ Ht Hp) as Hsafe. rewrite Hin in Hsafe.
  unfold FS.stat in Hstat. unfold FS.within.
  destruct (FS.resolve fs (PosixPath.join sf p)) as [l|] eqn:Hres; [|done].
  destruct (send_location root_path fs _ _ _ Hp Hres ltac:(by eexists) Hsafe)
    as (_ & (r & -> & Hpre) & _).
  by apply bool_decide_eq_true.
Qed.

Lemma within_entry node :
  FS.stat fs (PosixPath.join sf "index.html") = Some node ->
  FS.within fs sf (PosixPath.join sf "index.html") = true.
Proof.
  unfold FS.stat, FS.within.
  rewrite (resolve_static root_path fs "index.html" eq_refl).
  destruct (FS.resolve fs sf) as [r|]; [|done].
  change (split "index.html") with ["index.html"]. simpl. unfold FS.step.
  destruct (FS.is_dir_at fs r); [|done]. simpl.
  destruct (FS.lookup _ (r ++ _)); [|done]. intros _.
  apply bool_decide_eq_true. by apply prefix_app_r.
Qed.




End App.

End Outcome.

Import Outcome.

(** X1: whatever the request path, a 200 response carries the bytes of a
    regular file that lies in the static folder: nothing outside [dist] is
    ever sent. *)
Theorem served_bytes_lie_in_static_folder
    guess_type error_page root_path fs path :
  isabs root_path = true ->
  status (respond guess_type error_page root_path fs path) = 200%Z ->
  exists file,
    FS.within fs (static_folder root_path) file = true /\
    FS.read fs file
    = Some (body (respond guess_type error_page root_path fs path)).
Proof.
  intros Habs. unfold respond.
  destruct (guard root_path fs path) eqn:Hg.
  - rewrite (serve_guarded guess_type _ _ Habs _ Hg).
    destruct (stays_inside path) eqn:Hin; [|done].
    destruct (FS.read fs _) as [data|] eqn:Hread; [|done]. intros _.
    exists (PosixPath.join (static_folder root_path) path).
    split; [by apply (within_served _ _ _ data)|done].
  - rewrite (serve_unguarded guess_type _ _ Habs _ Hg).
    destruct (FS.stat fs _) as [[data|]|] eqn:Hstat; [|done|done]. intros _.
    exists (PosixPath.join (static_folder root_path) "index.html").
    split; [by apply (within_entry _ _ _ Hstat)|].
    unfold FS.read. by rewrite Hstat.
Qed.

Lemma served_bytes_lie_in_static_folder_witness :
  isabs Example.root_path = true /\
  status (Example.respond "assets/app.js") = 200%Z /\
  exists file,
    FS.within Example.fs (static_folder Example.root_path) file = true /\
    FS.read Example.fs file = Some (body (Example.respond "assets/app.js")).
Proof.
  split; [reflexivity|]. split; [reflexivity|].
  apply (served_bytes_lie_in_static_folder Example.guess_type
           Example.error_page Example.root_path Example.fs "assets/app.js");
    reflexivity.
Defined.

(** The view answers 404 exactly when the path passes the guard and is
    not an accepted path to a regular file: it names a directory, or it is
    absolute or climbs out lexically, even if it ends on a file of the
    tree. *)
Lemma not_found_exactly_when guess_type error_page root_path fs path :
  isabs root_path = true ->
  status (respond guess_type error_page root_path fs path) = 404%Z <->
  guard root_path fs path = true /\
  (stays_inside path = false
   \/ FS.isfile fs (PosixPath.join (static_folder root_path) path) = false).
Proof.
  intros Habs. unfold respond.
  destruct (guard root_path fs path) eqn:Hg.
  - rewrite (serve_guarded guess_type _ _ Habs _ Hg).
    unfold FS.read, FS.isfile.
    destruct (stays_inside path); [|by split; [auto|]].
    destruct (FS.stat fs _) as [[data|]|]; simpl.
    + split; [done|]. by intros [_ [?|?]].
    + split; [auto|done].
    + split; [auto|done].
  - rewrite (serve_unguarded guess_type _ _ Habs _ Hg).
    split; [|by intros [? _]].
    by destruct (FS.stat fs _) as [[data|]|].
Qed.

(** The view answers 500 exactly when the guard fails and the entry
    document is not a regular file. *)
Lemma server_error_exactly_when guess_type error_page root_path fs path :
  isabs root_path = true ->
  status (respond guess_type error_page root_path fs path) = 500%Z <->
  guard root_path fs path = false /\
  FS.isfile fs (PosixPath.join (static_folder root_path) "index.html") = false.
Proof.
  intros Habs. unfold respond.
  destruct (guard root_path fs path) eqn:Hg.
  - rewrite (serve_guarded guess_type _ _ Habs _ Hg).
    split; [|by intros [? _]].
    by destruct (if stays_inside path then _ else _).
  - rewrite (serve_unguarded guess_type _ _ Habs _ Hg). unfold FS.isfile.
    destruct (FS.stat fs _) as [[data|]|]; simpl.
    + split; [done|by intros [_ ?]].
    + by split.
    + by split.
Qed.



(** ** Setting and dropping headers *)

Module HeaderAlgebra.
Import Headers.

Lemma same_key_refl a : same_key a a = true.
Proof. by apply same_key_spec. Qed.

Lemma same_key_sym a b : same_key a b = same_key b a.
Proof. apply String.eqb_sym. Qed.

Lemma get_set key key' v h :
  get key (set key' v h) = if same_key key' key then Some v else get key h.
Proof.
  rewrite !get_getlist, getlist_set. by destruct (same_key key' key).
Qed.

Lemma drop_drop_same key h : drop_key key (drop_key key h) = drop_key key h.
Proof.
  induction h as [|[k v] r IH]; simpl; [done|].
  destruct (same_key k key) eqn:E; simpl; [done|]. by rewrite E, IH.
Qed.

Lemma drop_drop_comm key key' h :
  drop_key key (drop_key key' h) = drop_key key' (drop_key key h).
Proof.
  induction h as [|[k v] r IH]; simpl; [done|].
  destruct (same_key k key') eqn:E', (same_key k key) eqn:E; simpl;
    rewrite ?E, ?E'; by rewrite ?IH.
Qed.

Lemma drop_set_same key v h : drop_key key (set key v h) = drop_key key h.
Proof.
  induction h as [|[k0 v0] r IH]; simpl.
  - by rewrite same_key_refl.
  - destruct (same_key k0 key) eqn:E; simpl.
    + by rewrite same_key_refl, drop_drop_same.
    + by rewrite E, IH.
Qed.

Lemma drop_set_other key key' v h :
  same_key key' key = false ->
  drop_key key (set key' v h) = set key' v (drop_key key h).
Proof.
  intros Hne. induction h as [|[k0 v0] r IH]; simpl.
  - by rewrite Hne.
  - destruct (same_key k0 key') eqn:E'; simpl.
    + rewrite Hne, (same_key_trans_false _ _ _ E' Hne). simpl.
      by rewrite E', drop_drop_comm.
    + destruct (same_key k0 key) eqn:E; simpl; [done|]. by rewrite E', IH.
Qed.

Lemma set_set key v h : set key v (set key v h) = set key v h.
Proof.
  induction h as [|[k0 v0] r IH]; simpl.
  - by rewrite same_key_refl.
  - destruct (same_key k0 key) eqn:E; simpl.
    + by rewrite same_key_refl, drop_drop_same.
    + by rewrite E, IH.
Qed.

(** Two assignments to different keys can be swapped once the first key
    is there. *)
Lemma set_comm key v key' v' h :
  same_key key key' = false -> is_Some (get key h) ->
  set key v (set key' v' h) = set key' v' (set key v h).
Proof.
  intros Hne. assert (Hne' : same_key key' key = false)
    by (by rewrite same_key_sym).
  induction h as [|[k0 v0] r IH]; simpl; [by intros [? ?]|].
  intros Hin.
  destruct (same_key k0 key) eqn:E.
  - rewrite (same_key_trans_false _ _ _ E Hne). simpl.
    by rewrite E, Hne, drop_set_other.
  - destruct (same_key k0 key') eqn:E'; simpl.
    + by rewrite Hne', E', drop_set_other.
    + by rewrite E, E', IH.
Qed.

(** An assignment that changes nothing still changes nothing after an
    assignment to another key. *)
Lemma set_absorbed key v key' v' h :
  same_key key key' = false ->
  set key v h = h /\ is_Some (get key h) ->
  set key v (set key' v' h) = set key' v' h
  /\ is_Some (get key (set key' v' h)).
Proof.
  intros Hne [Hfix Hin]. split.
  - by rewrite set_comm, Hfix.
  - rewrite get_set. by rewrite same_key_sym, Hne.
Qed.

Lemma set_settled key v h :
  set key v (set key v h) = set key v h /\ is_Some (get key (set key v h)).
Proof.
  split; [apply set_set|]. rewrite get_set, same_key_refl. by eexists.
Qed.

End HeaderAlgebra.

Import HeaderAlgebra.

(** X5: [add_header] is idempotent: a response that has been through the
    hook is left exactly as it is by a second pass, whatever headers it
    started with. *)
Theorem add_header_idempotent response :
  add_header (add_header response) = add_header response.
Proof.
  pose proof (add_header_content_type response) as Hct.
  unfold add_header in *. simpl in *. rewrite Hct. clear Hct.
  set (v := cache_control _). set (h := headers response).
  f_equal.
  pose proof (set_settled "Cache-Control" v h) as H1.
  apply (set_absorbed "Cache-Control" v "X-Content-Type-Options" "nosniff" _ eq_refl) in H1.
  apply (set_absorbed "Cache-Control" v "X-Frame-Options" "DENY" _ eq_refl) in H1.
  apply (set_absorbed "Cache-Control" v "X-XSS-Protection" "1; mode=block" _ eq_refl) in H1.
  pose proof (set_settled "X-Content-Type-Options" "nosniff"
                (Headers.set "Cache-Control" v h)) as H2.
  apply (set_absorbed "X-Content-Type-Options" "nosniff" "X-Frame-Options" "DENY" _ eq_refl) in H2.
  apply (set_absorbed "X-Content-Type-Options" "nosniff" "X-XSS-Protection" "1; mode=block" _ eq_refl) in H2.
  pose proof (set_settled "X-Frame-Options" "DENY"
                (Headers.set "X-Content-Type-Options" "nosniff"
                   (Headers.set "Cache-Control" v h))) as H3.
  apply (set_absorbed "X-Frame-Options" "DENY" "X-XSS-Protection" "1; mode=block" _ eq_refl) in H3.
  destruct H1 as [-> _], H2 as [-> _], H3 as [-> _].
  apply set_set.
Qed.

(** X6: [add_header] touches nothing but its four headers: status and
    body are kept, and the other headers stay, in their order and with
    their values. *)
Theorem add_header_keeps_the_rest response :
  status (add_header response) = status response /\
  body (add_header response) = body response /\
  other_headers (headers (add_header response))
  = other_headers (headers response).
Proof.
  split; [done|]. split; [done|].
  unfold other_headers, add_header. simpl.
  repeat first [rewrite drop_set_other by reflexivity | rewrite drop_set_same].
  reflexivity.
Qed.

(** X8: a response without a Content-Type header gets [no-cache]: the
    default [''] of the lookup contains no ["assets"]. *)
Theorem no_content_type_means_no_cache response :
  Headers.get "Content-Type" (headers response) = None ->
  has_header (add_header response) "Cache-Control" "no-cache".
Proof.
  intros Hnone. unfold has_header. rewrite add_header_getlist.
  unfold Headers.get_default. by rewrite Hnone.
Qed.

Lemma no_content_type_means_no_cache_witness :
  Headers.get "Content-Type" [("Content-Length", "0")] = None /\
  has_header
    (add_header {| status := 204; headers := [("Content-Length", "0")];
                   body := [] |})
    "Cache-Control" "no-cache".
Proof.
  split; [reflexivity|].
  apply (no_content_type_means_no_cache
           {| status := 204; headers := [("Content-Length", "0")];
              body := [] |}).
  reflexivity.
Defined.

(** ** Content types without ["assets"] *)

Module CacheFacts.

Lemma startswith_cons d t c n :
  startswith (String d t) (String c n) = Ascii.eqb d c && startswith t n.
Proof.
  unfold startswith. simpl. destruct (ascii_dec c d) as [->|Hne].
  - by rewrite Ascii.eqb_refl.
  - symmetry. apply andb_false_iff. left. apply Ascii.eqb_neq. congruence.
Qed.

Lemma startswith_nil s : startswith s "" = true.
Proof. by destruct s. Qed.

(** A needle that begins [x ++ s] begins [x] or runs over into [s]. *)
Lemma startswith_app s needle : forall x,
  startswith (x +:+ s) needle = true ->
  startswith x needle = true \/ overlaps s needle = true.
Proof.
  induction needle as [|c needle IH]; intros x H.
  - left. apply startswith_nil.
  - destruct x as [|d x].
    + right. simpl. apply orb_true_iff. by left.
    + rewrite str_app_cons, startswith_cons in H.
      apply andb_true_iff in H as [Hd H].
      destruct (IH _ H) as [Hx|Ho].
      * left. by rewrite startswith_cons, Hd, Hx.
      * right. simpl. apply orb_true_iff. by right.
Qed.

Lemma contains_app needle s : forall x,
  overlaps s needle = false ->
  contains needle x = false -> contains needle s = false ->
  contains needle (x +:+ s) = false.
Proof.
  intros x Ho. induction x as [|c x IH]; intros Hx Hs; [done|].
  rewrite str_app_cons, contains_cons. rewrite contains_cons in Hx.
  apply orb_false_iff in Hx as [Hstart Hx].
  apply orb_false_iff. split; [|by apply IH].
  destruct (startswith (String c (x +:+ s)) needle) eqn:E; [|done].
  rewrite <- str_app_cons in E.
  destruct (startswith_app _ _ _ E); congruence.
Qed.

Lemma get_content_type_without_assets mimetype :
  contains "assets" mimetype = false ->
  contains "assets" (get_content_type mimetype) = false.
Proof.
  intros H. unfold get_content_type.
  destruct (_ || _); [|done]. by apply contains_app.
Qed.

Lemma content_type_of_without_assets guess_type path :
  table_without_assets guess_type ->
  contains "assets" (content_type_of guess_type path) = false.
Proof.
  intros Htable. unfold content_type_of, mimetype_of.
  apply get_content_type_without_assets.
  destruct (guess_type _) as [m|] eqn:E; [by apply (Htable _ _ E)|done].
Qed.

(** The one header of what the view returns or raises. *)
Lemma view_content_type guess_type error_page root_path fs path :
  exists content_type,
    headers (dispatch error_page (serve guess_type root_path fs path))
    = [("Content-Type", content_type)]
    /\ (content_type = "text/html; charset=utf-8"
        \/ exists file, content_type = content_type_of guess_type file).
Proof.
  unfold serve, send_from_directory, send_file. cbv zeta.
  destruct (guard root_path fs path).
  - destruct (safe_join _ _) as [q|]; [|eexists; split; [done|by left]].
    destruct (negb (FS.isfile fs _)); [eexists; split; [done|by left]|].
    destruct (FS.stat fs _) as [[|]|]; eexists; (split; [done|]);
      first [by left | right; by eexists].
  - destruct (FS.stat fs _) as [[|]|]; eexists; (split; [done|]);
      first [by left | right; by eexists].
Qed.

End CacheFacts.

Import CacheFacts.

(** X7: when no type of the host's extension table contains ["assets"],
    every response of the server is sent with [no-cache], the files under
    [assets/] included: the path plays no part in the cache header. *)
Theorem no_cache_for_every_path guess_type error_page root_path fs path :
  table_without_assets guess_type ->
  has_header (respond guess_type error_page root_path fs path)
    "Cache-Control" "no-cache".
Proof.
  intros Htable. unfold has_header, respond. rewrite add_header_getlist.
  destruct (view_content_type guess_type error_page root_path fs path)
    as (ct & -> & Hct).
  change (Headers.get_default "Content-Type" "" [("Content-Type", ct)]) with ct.
  unfold cache_control.
  destruct Hct as [->|[file ->]]; [done|].
  by rewrite content_type_of_without_assets.
Qed.

Lemma no_cache_for_every_path_witness :
  table_without_assets Example.guess_type /\
  has_header (Example.respond "assets/app.js") "Cache-Control" "no-cache".
Proof.
  assert (Htable : table_without_assets Example.guess_type).
  { intros name mimetype. unfold Example.guess_type.
    repeat destruct (Flask.endswith name _); intros [= <-]; reflexivity. }
  split; [exact Htable|].
  apply (no_cache_for_every_path Example.guess_type Example.error_page
           Example.root_path Example.fs "assets/app.js" Htable).
Defined.

(** X9: what decides the end of the dev-launcher is how its child ends and
    nothing else: the exit status is 1 exactly when [npm] cannot be
    started and 0 otherwise, and the shutdown message is printed exactly
    when the operator interrupts; a child that ends by itself leaves the
    launcher silent. *)
Theorem launcher_outcome w :
  let r := Proc.run Launcher.main w in
  (snd r = 1%Z <-> Proc.dev_server w = Proc.Missing) /\
  (snd r = 0%Z <-> Proc.dev_server w <> Proc.Missing) /\
  (shutdown_output (fst r) = [Launcher.shutdown_message]
   <-> Proc.dev_server w = Proc.Interrupted) /\
  (shutdown_output (fst r) = [] <-> Proc.dev_server w <> Proc.Interrupted).
Proof.
  destruct w as [b [returncode| |] l]; cbv zeta;
    repeat split; intros; try done.
Qed.

(** X10: in every run the dev-launcher prints its ten banner lines, then
    starts exactly one child, [npm run dev]; it never runs a build and
    never opens a listener. *)
Theorem launcher_spawns_one_child w :
  exists banner rest,
    fst (Proc.run Launcher.main w)
    = banner ++ Proc.Run ["npm"; "run"; "dev"] :: rest
    /\ length banner = 10
    /\ Forall is_print banner /\ Forall is_print rest.
Proof.
  destruct w as [b [returncode| |] l];
    eexists [_; _; _; _; _; _; _; _; _; _], _;
    (split; [reflexivity|]); (split; [reflexivity|]);
    split; repeat constructor.
Qed.

(** X11: the start-up block of server.py does the same in every world: the
    lines it prints, [Build complete!] among them, the one build and the one
    call of [app.run] do not depend on how the build or the listener ends;
    the exit status is 1 exactly when the port is busy, and 0 when the
    listener is stopped by an interrupt. *)
Theorem startup_outcome w w' :
  fst (Proc.run Startup.main w) = fst (Proc.run Startup.main w') /\
  In (Proc.Print (nl +:+ "✅ Build complete!")) (fst (Proc.run Startup.main w)) /\
  (snd (Proc.run Startup.main w) = 1%Z <-> Proc.http w = Proc.AddressInUse) /\
  (snd (Proc.run Startup.main w) = 0%Z
   <-> Proc.http w = Proc.StoppedByInterrupt).
Proof.
  destruct w as [b c [|]], w' as [b' c' [|]];
    (split; [reflexivity|]); (split; [simpl; tauto|]);
    repeat split; intros; done.
Qed.

(** X12: the CORS hook changes neither the status nor the body nor the
    Content-Type of a response: a request is answered with the same
    payload whatever origin it comes from. *)
Theorem cors_keeps_the_payload guess_type error_page root_path fs req :
  let plain_resp := respond guess_type error_page root_path fs (path req) in
  let resp := handle guess_type error_page root_path fs req in
  status resp = status plain_resp /\
  body resp = body plain_resp /\
  Headers.getlist "Content-Type" (headers resp)
  = Headers.getlist "Content-Type" (headers plain_resp).
Proof.
  cbv zeta. unfold handle, respond. cbv zeta.
  rewrite cors_status, cors_body, cors_getlist_other by done.
  rewrite !add_header_getlist.
  change (status (add_header ?r)) with (status r).
  change (body (add_header ?r)) with (body r).
  destruct (dispatch_with_cases error_page
              (cors_after_request (request_headers req))
              (serve guess_type root_path fs (path req))) as [->|[-> ->]];
    [done|].
  simpl dispatch.
  by rewrite cors_status, cors_body, cors_getlist_other.
Qed.

Lemma norm_keeps (P : string -> Prop) n comps : forall acc,
  Forall P comps -> Forall P acc -> Forall P (fold_left (norm_step n) comps acc).
Proof.
  induction comps as [|c comps IH]; intros acc Hall Hacc; simpl; [done|].
  inversion Hall; subst. apply IH; [done|]. unfold norm_step.
  destruct (is_skip c); [done|]. destruct (_ || _).
  - apply Forall_app. split; [done|]. by apply Forall_singleton.
  - destruct acc as [|x acc _] using rev_ind; [done|].
    rewrite PathFacts.removelast_snoc. by apply Forall_app in Hacc as [? _].
Qed.

(** X13: only a [..] component or an absolute path can lead the guard out
    of the static folder: a relative path without [..] that exists names
    something in [dist]. *)
Theorem guard_leaves_only_through_dotdot root_path fs path :
  isabs path = false ->
  existsb (String.eqb "..") (split path) = false ->
  FS.exists_ fs (PosixPath.join (static_folder root_path) path) = true ->
  FS.within fs (static_folder root_path)
    (PosixPath.join (static_folder root_path) path) = true.
Proof.
  intros Hrel Hdots. unfold FS.exists_, FS.stat, FS.within.
  rewrite (resolve_static root_path fs _ Hrel).
  destruct (FS.resolve fs (static_folder root_path)) as [r|]; [|done].
  destruct (FS.walk fs r (split path)) as [l|] eqn:Hwalk; [|done]. intros _.
  apply bool_decide_eq_true.
  pose proof (PathFacts.walk_norm fs (split path) [] r r l (Forall_nil_2 _)
                (eq_sym (app_nil_r r)) Hwalk) as [[_ ->]|[rest Hhead]].
  - by apply prefix_app_r.
  - exfalso.
    assert (Hall : Forall (fun c => String.eqb ".." c = false) (split path)).
    { apply Forall_forall. intros c Hc.
      destruct (String.eqb ".." c) eqn:E; [|done].
      assert (existsb (String.eqb "..") (split path) = true); [|congruence].
      apply existsb_exists. exists c. split; [|done].
      by apply list_elem_of_In. }
    pose proof (norm_keeps _ 0 _ [] Hall (Forall_nil_2 _)) as Hkept.
    rewrite Hhead in Hkept. by inversion Hkept.
Qed.

Lemma guard_leaves_only_through_dotdot_witness :
  isabs "assets/./app.js" = false /\
  existsb (String.eqb "..") (split "assets/./app.js") = false /\
  FS.exists_ Example.fs
    (PosixPath.join (static_folder Example.root_path) "assets/./app.js") = true /\
  FS.within Example.fs (static_folder Example.root_path)
    (PosixPath.join (static_folder Example.root_path) "assets/./app.js") = true.
Proof.
  split; [reflexivity|]. split; [reflexivity|]. split; [reflexivity|].
  apply (guard_leaves_only_through_dotdot Example.root_path Example.fs
           "assets/./app.js"); reflexivity.
Defined.

(** * The application as a whole *)

Module AppFacts.
Import App.

Lemma route_static url filename :
  route url = Static filename -> truthy filename = true.
Proof.
  unfold route. destruct url as [|c rest]; [done|].
  destruct (negb _ || _); [done|]. destruct (negb (truthy rest)); [done|].
  destruct (strip_prefix "dist/" rest) as [f|]; [|done].
  destruct (truthy f) eqn:Hf; [|done]. by intros [= <-].
Qed.

(** The early pass of an error response through the CORS hook changes
    nothing but the Allow-Origin header. *)
Lemma dispatch_with_same error_page request_headers r :
  let early :=
    dispatch_with error_page (cors_after_request request_headers) r in
  status early = status (dispatch error_page r) /\
  body early = body (dispatch error_page r) /\
  forall key,
    Headers.same_key ACL_ORIGIN key = false ->
    Headers.getlist key (headers early)
    = Headers.getlist key (headers (dispatch error_page r)).
Proof.
  cbv zeta.
  destruct (dispatch_with_cases error_page
              (cors_after_request request_headers) r) as [->|[-> ->]];
    [done|].
  simpl dispatch. rewrite cors_status, cors_body.
  split; [done|]. split; [done|]. intros key Hkey.
  by apply cors_getlist_other.
Qed.

(** [add_header] reads the incoming response through its headers other
    than Allow-Origin. *)
Lemma add_header_same r1 r2 key :
  (forall k, Headers.same_key ACL_ORIGIN k = false ->
     Headers.getlist k (headers r1) = Headers.getlist k (headers r2)) ->
  Headers.same_key ACL_ORIGIN key = false ->
  Headers.getlist key (headers (add_header r1))
  = Headers.getlist key (headers (add_header r2)).
Proof.
  intros Hsame Hkey. rewrite !add_header_getlist.
  unfold Headers.get_default. rewrite !get_getlist.
  rewrite (Hsame "Content-Type" eq_refl). by rewrite (Hsame key Hkey).
Qed.

Section Host.

Variable guess_type : string -> option string.
Variable error_page : Z -> list Byte.byte.
Variable root_path : string.
Variable conditional : Headers.t -> response -> response.
Variable elsewhere : request -> response.
Variable fs : FS.t.

#[local] Abbreviation sf := (static_folder root_path).
#[local] Abbreviation answer :=
  (App.answer guess_type error_page root_path conditional elsewhere fs).
#[local] Abbreviation view :=
  (App.view guess_type error_page root_path conditional elsewhere fs).

Lemma answer_status req : status (answer req) = status (view req).
Proof. unfold App.answer. by rewrite cors_status. Qed.

Lemma answer_body req : body (answer req) = body (view req).
Proof. unfold App.answer. by rewrite cors_body. Qed.

Lemma view_of_view req path :
  method req = "GET" -> is_conditional (headers_in req) = false ->
  route (url req) = View path ->
  view req
  = dispatch_with error_page (cors_after_request (headers_in req))
      (serve guess_type root_path fs path).
Proof.
  intros Hm Hc Hr. unfold App.view. rewrite Hm, Hr. cbv zeta. simpl.
  unfold sent. rewrite Hc. by destruct (serve _ _ _ _).
Qed.

Lemma view_of_static req filename :
  method req = "GET" -> is_conditional (headers_in req) = false ->
  route (url req) = Static filename ->
  view req
  = dispatch_with error_page (cors_after_request (headers_in req))
      (send_static_file guess_type root_path fs filename).
Proof.
  intros Hm Hc Hr. unfold App.view. rewrite Hm, Hr. cbv zeta. simpl.
  unfold sent. rewrite Hc. by destruct (send_static_file _ _ _ _).
Qed.

(** A GET without Range and conditional headers that goes to [serve] is
    answered as [respond] says, up to the Allow-Origin header. *)
Lemma answer_of_view req path :
  method req = "GET" -> is_conditional (headers_in req) = false ->
  route (url req) = View path ->
  status (answer req)
  = status (respond guess_type error_page root_path fs path) /\
  body (answer req)
  = body (respond guess_type error_page root_path fs path) /\
  forall key,
    Headers.same_key ACL_ORIGIN key = false ->
    Headers.getlist key (headers (answer req))
    = Headers.getlist key
        (headers (respond guess_type error_page root_path fs path)).
Proof.
  intros Hm Hc Hr.
  destruct (dispatch_with_same error_page (headers_in req)
              (serve guess_type root_path fs path)) as (Hst & Hbody & Hlist).
  rewrite answer_status, answer_body. unfold App.answer.
  rewrite (view_of_view _ _ Hm Hc Hr). unfold respond.
  split; [done|]. split; [done|]. intros key Hkey.
  rewrite cors_getlist_other by done. by apply add_header_same.
Qed.

Hypothesis root_abs : isabs root_path = true.

(** The static endpoint looks for the normal form of the file name below
    the static folder; nothing asks whether the name as given exists. *)
Lemma static_file_cases filename :
  truthy filename = true ->
  send_static_file guess_type root_path fs filename =
  match (if stays_inside filename
         then FS.read fs (PosixPath.join sf (normpath filename))
         else None) with
  | Some data =>
      Ok {| status := 200;
            headers := [("Content-Type",
                          content_type_of guess_type
                            (PosixPath.join sf (normpath filename)))];
            body := data |}
  | None => Raise NotFound
  end.
Proof.
  intros Hf. unfold send_static_file, send_from_directory.
  destruct (static_folder_shape root_path) as [Ht _].
  rewrite (safe_join_stays _ _ Ht Hf).
  destruct (stays_inside filename); [|done]. cbv zeta.
  unfold send_file. cbv zeta. rewrite !(root_join_below _ root_abs).
  unfold FS.isfile, FS.read.
  by destruct (FS.stat fs _) as [[data|]|].
Qed.

End Host.

End AppFacts.

Import App AppFacts.

(** C1, as stated, fails in three ways.  [/../dist/style.css] names a
    regular file of the asset tree and is answered 404, because [safe_join]
    refuses the path.  With a [dist/dist/only.txt], [/dist/only.txt] goes
    to Flask's static endpoint, which looks for [dist/only.txt] and answers
    404.  And [/style.css] asked with [Range: bytes=0-3] is answered 206
    with four bytes. *)
Lemma existing_files_are_not_always_served :
  ~ existing_file_is_served (Example.answer Example.fs) Example.root_path
      Example.fs (get_request "/../dist/style.css" []) "../dist/style.css"
  /\ ~ existing_file_is_served (Example.answer Example.nested)
         Example.root_path Example.nested
         (get_request "/dist/only.txt" []) "dist/only.txt"
  /\ ~ existing_file_is_served (Example.answer Example.fs) Example.root_path
         Example.fs (get_request "/style.css" [("Range", "bytes=0-3")])
         "style.css".
Proof.
  split; [|split]; intros H.
  - destruct (H eq_refl eq_refl _ eq_refl) as [Hst _].
    vm_compute in Hst. discriminate.
  - destruct (H eq_refl eq_refl _ eq_refl) as [Hst _].
    vm_compute in Hst. discriminate.
  - destruct (H eq_refl eq_refl _ eq_refl) as [Hst _].
    vm_compute in Hst. discriminate.
Qed.

(** C1, amended: a GET request without Range and conditional headers that
    the router hands to [serve] (its URL is not under [/dist/]), with a
    non-empty path that [safe_join] accepts and that names a regular file,
    is answered 200 with the bytes of that file and one Content-Type
    header, derived from the name of the file. *)
Theorem plain_get_of_file_is_served
    guess_type error_page root_path conditional elsewhere fs req path data :
  isabs root_path = true ->
  method req = "GET" ->
  is_conditional (headers_in req) = false ->
  route (url req) = View path ->
  truthy path = true ->
  stays_inside path = true ->
  FS.read fs (PosixPath.join (static_folder root_path) path) = Some data ->
  let resp :=
    answer guess_type error_page root_path conditional elsewhere fs req in
  status resp = 200%Z /\ body resp = data /\
  exists name,
    name_of fs (PosixPath.join (static_folder root_path) path) = Some name /\
    has_header resp "Content-Type"
      (get_content_type (mimetype_of guess_type name)).
Proof.
  intros Habs Hm Hc Hr Hp Hin Hread resp. subst resp.
  destruct (answer_of_view guess_type error_page root_path conditional
              elsewhere fs req path Hm Hc Hr) as (-> & -> & Hlist).
  destruct (file_inside_is_served guess_type error_page root_path fs path
              data Habs Hp Hin Hread) as (Hst & Hbody & name & Hname & Hct).
  split; [done|]. split; [done|]. exists name. split; [done|].
  unfold has_header in *. by rewrite Hlist.
Qed.

Lemma plain_get_of_file_is_served_witness :
  let req := get_request "/assets/../style.css" [("Accept", "text/css")] in
  isabs Example.root_path = true /\
  method req = "GET" /\
  is_conditional (headers_in req) = false /\
  route (url req) = View "assets/../style.css" /\
  truthy "assets/../style.css" = true /\
  stays_inside "assets/../style.css" = true /\
  FS.read Example.fs
    (PosixPath.join (static_folder Example.root_path) "assets/../style.css")
  = Some (Example.bytes "body{margin:0}") /\
  let resp := Example.answer Example.fs req in
  status resp = 200%Z /\ body resp = Example.bytes "body{margin:0}" /\
  exists name,
    name_of Example.fs
      (PosixPath.join (static_folder Example.root_path) "assets/../style.css")
    = Some name /\
    has_header resp "Content-Type"
      (get_content_type (mimetype_of Example.guess_type name)).
Proof.
  cbv zeta. do 7 (split; [reflexivity|]).
  apply (plain_get_of_file_is_served Example.guess_type Example.error_page
           Example.root_path Example.conditional Example.elsewhere Example.fs
           (get_request "/assets/../style.css" [("Accept", "text/css")])
           "assets/../style.css");
    reflexivity.
Defined.

(** C2, as stated, fails in two ways: [/assets] names a directory, not a
    file of the asset tree, and is answered 404 by the file branch; and
    [/dist/nope], which names nothing, goes to Flask's static endpoint and
    is answered 404 as well. *)
Lemma non_files_do_not_always_fall_back :
  ~ non_file_gets_entry (Example.answer Example.fs) Example.root_path
      Example.fs (get_request "/assets" []) "assets"
  /\ ~ non_file_gets_entry (Example.answer Example.fs) Example.root_path
         Example.fs (get_request "/dist/nope" []) "dist/nope".
Proof.
  split; intros H.
  - destruct (H eq_refl) as (data & _ & Hst & _).
    + intros [Hfile _]. vm_compute in Hfile. discriminate.
    + vm_compute in Hst. discriminate.
  - destruct (H eq_refl) as (data & _ & Hst & _).
    + intros [Hfile _]. vm_compute in Hfile. discriminate.
    + vm_compute in Hst. discriminate.
Qed.

(** C2, amended: a GET request without Range and conditional headers that
    the router hands to [serve] (its URL is [/], or not under [/dist/]),
    with a path that is empty or for which [join(static_folder, path)] does
    not exist, is answered, when the entry document is there, 200 with the
    bytes of [index.html] and no Location header. *)
Theorem plain_get_of_missing_path_gets_entry
    guess_type error_page root_path conditional elsewhere fs req path data :
  isabs root_path = true ->
  method req = "GET" ->
  is_conditional (headers_in req) = false ->
  route (url req) = View path ->
  truthy path = false
  \/ FS.exists_ fs (PosixPath.join (static_folder root_path) path) = false ->
  FS.read fs (PosixPath.join (static_folder root_path) "index.html")
  = Some data ->
  let resp :=
    answer guess_type error_page root_path conditional elsewhere fs req in
  status resp = 200%Z /\ body resp = data /\
  Headers.getlist "Location" (headers resp) = [].
Proof.
  intros Habs Hm Hc Hr Hguard Hread resp. subst resp.
  destruct (answer_of_view guess_type error_page root_path conditional
              elsewhere fs req path Hm Hc Hr) as (-> & -> & Hlist).
  rewrite (Hlist "Location" eq_refl).
  by apply missing_path_gets_entry.
Qed.

Lemma plain_get_of_missing_path_gets_entry_witness :
  let req := get_request "/nonexistent/route" [] in
  isabs Example.root_path = true /\
  method req = "GET" /\
  is_conditional (headers_in req) = false /\
  route (url req) = View "nonexistent/route" /\
  (truthy "nonexistent/route" = false
   \/ FS.exists_ Example.fs
        (PosixPath.join (static_folder Example.root_path) "nonexistent/route")
      = false) /\
  FS.read Example.fs
    (PosixPath.join (static_folder Example.root_path) "index.html")
  = Some (Example.bytes "<!doctype html><div id=root></div>") /\
  let resp := Example.answer Example.fs req in
  status resp = 200%Z /\
  body resp = Example.bytes "<!doctype html><div id=root></div>" /\
  Headers.getlist "Location" (headers resp) = [].
Proof.
  cbv zeta. do 4 (split; [reflexivity|]).
  split; [right; reflexivity|]. split; [reflexivity|].
  apply (plain_get_of_missing_path_gets_entry Example.guess_type
           Example.error_page Example.root_path Example.conditional
           Example.elsewhere Example.fs
           (get_request "/nonexistent/route" []) "nonexistent/route");
    [reflexivity | reflexivity | reflexivity | reflexivity
    | right; reflexivity | reflexivity].
Defined.

Lemma view_elsewhere guess_type error_page root_path conditional elsewhere
    fs req :
  method req = "GET" -> route (url req) = NoView ->
  App.view guess_type error_page root_path conditional elsewhere fs req
  = elsewhere req.
Proof. intros Hm Hr. unfold App.view. by rewrite Hm, Hr. Qed.

(** X2: a GET request without Range and conditional headers is answered 404
    exactly in these cases.  Handed to [serve]: the path passes the guard
    and is not an accepted path to a regular file (a directory, an absolute
    path, one that climbs out lexically even if it ends on a file of the
    tree).  Handed to Flask's static endpoint [/dist/<filename>]: the file
    name is not accepted or its normal form names no regular file of the
    static folder, whether or not [serve] would have fallen back.  On any
    other URL: when the framework itself answers 404. *)
Theorem plain_get_not_found_exactly_when
    guess_type error_page root_path conditional elsewhere fs req :
  isabs root_path = true ->
  method req = "GET" ->
  is_conditional (headers_in req) = false ->
  status (answer guess_type error_page root_path conditional elsewhere fs req)
  = 404%Z
  <->
  match route (url req) with
  | View path =>
      guard root_path fs path = true /\
      (stays_inside path = false
       \/ FS.isfile fs (PosixPath.join (static_folder root_path) path) = false)
  | Static filename =>
      stays_inside filename = false
      \/ FS.isfile fs
           (PosixPath.join (static_folder root_path) (normpath filename))
         = false
  | NoView => status (elsewhere req) = 404%Z
  end.
Proof.
  intros Habs Hm Hc. destruct (route (url req)) as [path|filename|] eqn:Hr.
  - destruct (answer_of_view guess_type error_page root_path conditional
                elsewhere fs req path Hm Hc Hr) as (-> & _).
    by apply not_found_exactly_when.
  - rewrite answer_status, (view_of_static _ _ _ _ _ _ _ _ Hm Hc Hr).
    destruct (dispatch_with_same error_page (headers_in req)
                (send_static_file guess_type root_path fs filename))
      as (-> & _).
    rewrite (static_file_cases _ _ _ Habs _ (route_static _ _ Hr)).
    unfold FS.isfile, FS.read.
    destruct (stays_inside filename); [|by split; [auto|]].
    destruct (FS.stat fs _) as [[data|]|]; simpl.
    + split; [done|]. by intros [?|?].
    + split; [auto|done].
    + split; [auto|done].
  - by rewrite answer_status, (view_elsewhere _ _ _ _ _ _ _ Hm Hr).
Qed.

Lemma plain_get_not_found_exactly_when_witness :
  let req := get_request "/dist/nope" [] in
  isabs Example.root_path = true /\
  method req = "GET" /\
  is_conditional (headers_in req) = false /\
  (status (Example.answer Example.fs req) = 404%Z
   <->
   match route (url req) with
   | View path =>
       guard Example.root_path Example.fs path = true /\
       (stays_inside path = false
        \/ FS.isfile Example.fs
             (PosixPath.join (static_folder Example.root_path) path) = false)
   | Static filename =>
       stays_inside filename = false
       \/ FS.isfile Example.fs
            (PosixPath.join (static_folder Example.root_path)
               (normpath filename))
          = false
   | NoView => status (Example.elsewhere req) = 404%Z
   end).
Proof.
  cbv zeta. do 3 (split; [reflexivity|]).
  apply (plain_get_not_found_exactly_when Example.guess_type
           Example.error_page Example.root_path Example.conditional
           Example.elsewhere Example.fs (get_request "/dist/nope" []));
    reflexivity.
Defined.

(** X3: a GET request without Range and conditional headers is answered 500
    exactly in these cases.  Handed to [serve]: the guard fails and the
    entry document is not a regular file, so that a missing [index.html]
    turns every fallback into a server error.  Handed to Flask's static
    endpoint: never.  On any other URL: when the framework itself answers
    500. *)
Theorem plain_get_server_error_exactly_when
    guess_type error_page root_path conditional elsewhere fs req :
  isabs root_path = true ->
  method req = "GET" ->
  is_conditional (headers_in req) = false ->
  status (answer guess_type error_page root_path conditional elsewhere fs req)
  = 500%Z
  <->
  match route (url req) with
  | View path =>
      guard root_path fs path = false /\
      FS.isfile fs (PosixPath.join (static_folder root_path) "index.html")
      = false
  | Static filename => False
  | NoView => status (elsewhere req) = 500%Z
  end.
Proof.
  intros Habs Hm Hc. destruct (route (url req)) as [path|filename|] eqn:Hr.
  - destruct (answer_of_view guess_type error_page root_path conditional
                elsewhere fs req path Hm Hc Hr) as (-> & _).
    by apply server_error_exactly_when.
  - rewrite answer_status, (view_of_static _ _ _ _ _ _ _ _ Hm Hc Hr).
    destruct (dispatch_with_same error_page (headers_in req)
                (send_static_file guess_type root_path fs filename))
      as (-> & _).
    rewrite (static_file_cases _ _ _ Habs _ (route_static _ _ Hr)).
    split; [|done].
    by destruct (if stays_inside filename then _ else _).
  - by rewrite answer_status, (view_elsewhere _ _ _ _ _ _ _ Hm Hr).
Qed.

Lemma plain_get_server_error_exactly_when_witness :
  let req := get_request "/any/route" [] in
  let empty := FS.mk (FS.Dir ∅) [] in
  isabs Example.root_path = true /\
  method req = "GET" /\
  is_conditional (headers_in req) = false /\
  (status (Example.answer empty req) = 500%Z
   <->
   match route (url req) with
   | View path =>
       guard Example.root_path empty path = false /\
       FS.isfile empty
         (PosixPath.join (static_folder Example.root_path) "index.html")
       = false
   | Static filename => False
   | NoView => status (Example.elsewhere req) = 500%Z
   end).
Proof.
  cbv zeta. do 3 (split; [reflexivity|]).
  apply (plain_get_server_error_exactly_when Example.guess_type
           Example.error_page Example.root_path Example.conditional
           Example.elsewhere (FS.mk (FS.Dir ∅) [])
           (get_request "/any/route" []));
    reflexivity.
Defined.
